(** * codefind: the Bedrock completion layer ([codefind/bedrock_llm.py])

    A shallow embedding of the request formatters, the response parsers, the
    streaming generator, the model resolver and the [completion] gateway of
    [bedrock_llm.py], followed by the properties of the specification that
    were checked against it.

    Conventions of the embedding.
    - A Python [str] is a [string]: a sequence of code points below 256.
    - What [json.loads] returns is a [json] value.  The native bodies of the
      three model families carry no fractional number, so JSON numbers are
      integers here; the generation parameters that are floats
      ([temperature], [top_p]) are binary64 values passed through verbatim.
    - A Python dict deserialised from JSON is an association list with
      distinct keys, in insertion order (the order [str()] prints).
    - Code that can raise returns a [res]: [Ok v] or [Raise e].
    - The inference service is a [World]: an oracle for each remote call and
      a log of the calls made so far. *)

From Stdlib Require Import ZArith String Ascii List Bool Lia.
From Stdlib Require Import PrimFloat.
From Stdlib Require DecimalString.
From stdpp Require Import base option gmap strings.
Import ListNotations.

#[local] Set Warnings "-register-all,-inexact-float".
Local Open Scope string_scope.
Local Open Scope Z_scope.

(** ** Exceptions and the error monad *)

Inductive exn_class :=
| KeyError | IndexError | AttributeError | TypeError
| BedrockLLMError | BedrockAuthError | BedrockRateLimitError | BedrockModelError
| ClientError (code : string)      (* botocore: e.response['Error']['Code'] *)
| OtherError (name : string).      (* any other subclass of Exception *)

(** [exn_msg] is what [str(e)] returns. *)
Record exn := Exn { exn_cls : exn_class; exn_msg : string }.

Inductive res (A : Type) :=
| Ok (a : A)
| Raise (e : exn).
Arguments Ok {A} a.
Arguments Raise {A} e.

Definition bind {A B} (m : res A) (k : A -> res B) : res B :=
  match m with
  | Ok a => k a
  | Raise e => Raise e
  end.

Notation "x <- m ;; k" := (bind m (fun x => k))
  (at level 100, m at next level, right associativity).

(** [try: m except Exception: h] *)
Definition try_except {A} (m : res A) (h : exn -> res A) : res A :=
  match m with
  | Ok a => Ok a
  | Raise e => h e
  end.

(** ** Python strings *)

Module PyStr.

Definition code (c : ascii) : N := N_of_ascii c.

(** [str.lower()] on one code point below 256: A-Z, and the Latin-1
    capitals U+00C0..U+00DE without the multiplication sign U+00D7. *)
Definition lower_char (c : ascii) : ascii :=
  let n := code c in
  if ((65 <=? n) && (n <=? 90) || (192 <=? n) && (n <=? 222) && negb (n =? 215))%N
  then ascii_of_N (n + 32) else c.

Fixpoint lower (s : string) : string :=
  match s with
  | EmptyString => EmptyString
  | String c s' => String (lower_char c) (lower s')
  end.

(** [s.startswith(p)] *)
Definition startswith (s p : string) : bool := String.prefix p s.

(** [sub in s] *)
Fixpoint contains (sub s : string) : bool :=
  String.prefix sub s ||
  match s with
  | EmptyString => false
  | String _ s' => contains sub s'
  end.

(** [s.replace(old, new)]: the occurrences of [old] are found left to
    right and do not overlap.  [skip] counts the characters of a matched
    occurrence still to be dropped. *)
Fixpoint replace_from (old new s : string) (skip : nat) : string :=
  match s with
  | EmptyString => EmptyString
  | String c s' =>
      match skip with
      | S k => replace_from old new s' k
      | O =>
          if String.prefix old s
          then new ++ replace_from old new s' (String.length old - 1)
          else String c (replace_from old new s' 0)
      end
  end.

Fixpoint interleave (new s : string) : string :=
  match s with
  | EmptyString => new
  | String c s' => new ++ String c (interleave new s')
  end.

Definition replace (old new s : string) : string :=
  match old with
  | EmptyString => interleave new s
  | String _ _ => replace_from old new s 0
  end.

(** [s.split(sep, 1)] for a one-character separator: one or two parts. *)
Fixpoint split1 (sep : ascii) (s : string) : list string :=
  match s with
  | EmptyString => [EmptyString]
  | String c s' =>
      if Ascii.eqb c sep then [EmptyString; s']
      else match split1 sep s' with
           | h :: t => String c h :: t
           | [] => [String c EmptyString]
           end
  end.

(** [sep.join(l)] *)
Fixpoint join (sep : string) (l : list string) : string :=
  match l with
  | [] => EmptyString
  | [x] => x
  | x :: l' => x ++ sep ++ join sep l'
  end.

(** [str(n)] for an int *)
Definition of_Z (n : Z) : string :=
  DecimalString.NilZero.string_of_int (Z.to_int n).

Definition dquote : ascii := ascii_of_N 34.

Definition hex_digit (n : N) : ascii :=
  ascii_of_N (if (n <? 10)%N then 48 + n else 87 + n).

(** Code points [repr] prints as they are: the printable ones. *)
Definition printable (c : ascii) : bool :=
  let n := code c in
  ((32 <=? n) && (n <? 127) || (161 <=? n) && negb (n =? 173))%N.

Definition repr_char (quote c : ascii) : string :=
  let n := code c in
  if Ascii.eqb c quote || Ascii.eqb c "\" then String "\" (String c EmptyString)
  else if (n =? 9)%N then "\t"
  else if (n =? 10)%N then "\n"
  else if (n =? 13)%N then "\r"
  else if printable c then String c EmptyString
  else String "\" (String "x" (String (hex_digit (n / 16)) (String (hex_digit (n mod 16)) EmptyString))).

Fixpoint repr_chars (quote : ascii) (s : string) : string :=
  match s with
  | EmptyString => EmptyString
  | String c s' => repr_char quote c ++ repr_chars quote s'
  end.

(** [repr(s)]: single quotes, unless [s] has a single quote and no
    double quote. *)
Definition repr (s : string) : string :=
  let quote : ascii :=
    if contains "'" s && negb (contains (String dquote EmptyString) s)
    then dquote else "'"%char in
  String quote (repr_chars quote s ++ String quote EmptyString).

End PyStr.

(** ** Python values *)

(** What [json.loads] returns. *)
Inductive json :=
| JNull
| JBool (b : bool)
| JInt (n : Z)
| JStr (s : string)
| JList (l : list json)
| JDict (d : list (string * json)).

(** A JSON-serialisable object as the caller hands it over: generation
    parameters may be floats. *)
Inductive pyobj :=
| PFloat (f : float)
| PJson (j : json)
| PList (l : list pyobj)
| PDict (d : list (string * pyobj)).

Module Py.

Definition type_name (j : json) : string :=
  match j with
  | JNull => "NoneType"
  | JBool _ => "bool"
  | JInt _ => "int"
  | JStr _ => "str"
  | JList _ => "list"
  | JDict _ => "dict"
  end.

(** [bool(j)] *)
Definition truthy (j : json) : bool :=
  match j with
  | JNull => false
  | JBool b => b
  | JInt n => negb (n =? 0)
  | JStr s => negb (String.eqb s EmptyString)
  | JList l => match l with [] => false | _ => true end
  | JDict d => match d with [] => false | _ => true end
  end.

(** [isinstance(j, list)] *)
Definition is_list (j : json) : bool :=
  match j with JList _ => true | _ => false end.

(** Lookup in a dict. *)
Fixpoint lookup {V} (d : list (string * V)) (k : string) : option V :=
  match d with
  | [] => None
  | (k', v) :: d' => if String.eqb k' k then Some v else lookup d' k
  end.

(** [k in d] for a dict [d] *)
Definition has_key {V} (d : list (string * V)) (k : string) : bool :=
  match lookup d k with Some _ => true | None => false end.

(** [d.get(k, default)] on a dict *)
Definition dict_get {V} (d : list (string * V)) (k : string) (default : V) : V :=
  match lookup d k with Some v => v | None => default end.

(** [d[k]] on a dict: [KeyError(k)], whose [str] is [repr(k)]. *)
Definition getitem {V} (d : list (string * V)) (k : string) : res V :=
  match lookup d k with
  | Some v => Ok v
  | None => Raise (Exn KeyError (PyStr.repr k))
  end.

Definition no_attribute (j : json) (attr : string) : exn :=
  Exn AttributeError
      ("'" ++ type_name j ++ "' object has no attribute '" ++ attr ++ "'").

(** [j.get(k, default)]: only a dict has the method. *)
Definition get (j : json) (k : string) (default : json) : res json :=
  match j with
  | JDict d => Ok (dict_get d k default)
  | _ => Raise (no_attribute j "get")
  end.

(** [j.get(k)], with the default [None] *)
Definition get_none (j : json) (k : string) : res json := get j k JNull.

(** [k in j] *)
Definition contains_key (j : json) (k : string) : res bool :=
  match j with
  | JDict d => Ok (has_key d k)
  | JList l =>
      Ok (existsb (fun x => match x with JStr s => String.eqb s k | _ => false end) l)
  | JStr s => Ok (PyStr.contains k s)
  | _ => Raise (Exn TypeError
                    ("argument of type '" ++ type_name j ++ "' is not iterable"))
  end.

(** [j[0]] *)
Definition index0 (j : json) : res json :=
  match j with
  | JList (x :: _) => Ok x
  | JList [] => Raise (Exn IndexError "list index out of range")
  | JStr (String c _) => Ok (JStr (String c EmptyString))
  | JStr EmptyString => Raise (Exn IndexError "string index out of range")
  | JDict _ => Raise (Exn KeyError "0")
  | _ => Raise (Exn TypeError
                    ("'" ++ type_name j ++ "' object is not subscriptable"))
  end.

(** [j == s] for a string literal [s] *)
Definition eq_str (j : json) (s : string) : bool :=
  match j with JStr t => String.eqb t s | _ => false end.

Definition as_int (j : json) : option Z :=
  match j with
  | JInt n => Some n
  | JBool b => Some (if b then 1 else 0)
  | _ => None
  end.

Definition cannot_concatenate (kind : string) (b : json) : exn :=
  Exn TypeError
      ("can only concatenate " ++ kind ++ " (not " ++ String PyStr.dquote (type_name b)
         ++ String PyStr.dquote (") to " ++ kind)).

(** [a + b]: integers (a bool counts as one) add, strings and lists
    concatenate, anything else is a [TypeError]. *)
Definition add (a b : json) : res json :=
  match as_int a, as_int b with
  | Some x, Some y => Ok (JInt (x + y))
  | _, _ =>
      match a, b with
      | JStr s, JStr t => Ok (JStr (s ++ t))
      | JStr _, _ => Raise (cannot_concatenate "str" b)
      | JList l, JList m => Ok (JList (l ++ m))
      | JList _, _ => Raise (cannot_concatenate "list" b)
      | _, _ =>
          Raise (Exn TypeError
                     ("unsupported operand type(s) for +: '" ++ type_name a
                        ++ "' and '" ++ type_name b ++ "'"))
      end
  end.

(** [repr(j)] *)
Fixpoint repr (j : json) : string :=
  match j with
  | JNull => "None"
  | JBool true => "True"
  | JBool false => "False"
  | JInt n => PyStr.of_Z n
  | JStr s => PyStr.repr s
  | JList l => "[" ++ PyStr.join ", " (List.map repr l) ++ "]"
  | JDict d =>
      "{" ++ PyStr.join ", "
               (List.map (fun kv => match kv with
                                    | (k, v) => PyStr.repr k ++ ": " ++ repr v
                                    end) d) ++ "}"
  end.

(** [str(j)], which is also what an f-string field prints *)
Definition str (j : json) : string :=
  match j with
  | JStr s => s
  | _ => repr j
  end.

End Py.

(** ** Model families

    The family is read off the deployment id by three substring tests on
    its lower-cased text, in this order, at every place that dispatches. *)

Inductive family := Anthropic | Titan | Llama.

Definition family_of (model_id : string) : option family :=
  let m := PyStr.lower model_id in
  if PyStr.contains "anthropic" m then Some Anthropic
  else if PyStr.contains "amazon.titan" m then Some Titan
  else if PyStr.contains "meta.llama" m then Some Llama
  else None.

(** ** [class BedrockResponse] *)

Module Response.

Record Message := { content : json; role : string }.
Record Choice := { message : Message; finish_reason : json }.
Record Usage :=
  { prompt_tokens : json; completion_tokens : json; total_tokens : json }.
Record BedrockResponse :=
  { model : string; choices : list Choice; usage : Usage }.

Definition assistant (text : json) : Message :=
  {| content := text; role := "assistant" |}.

Definition _parse_anthropic_response (model : string) (data : json)
  : res BedrockResponse :=
  content <- Py.get data "content" (JList []) ;;
  text <- (if Py.truthy content && Py.is_list content
           then (first <- Py.index0 content ;; Py.get first "text" (JStr ""))
           else Ok (JStr (Py.str content))) ;;
  stop_reason <- Py.get data "stop_reason" (JStr "stop") ;;
  usage_data <- Py.get data "usage" (JDict []) ;;
  prompt <- Py.get usage_data "input_tokens" (JInt 0) ;;
  completion <- Py.get usage_data "output_tokens" (JInt 0) ;;
  input_again <- Py.get usage_data "input_tokens" (JInt 0) ;;
  output_again <- Py.get usage_data "output_tokens" (JInt 0) ;;
  total <- Py.add input_again output_again ;;
  Ok {| model := model;
        choices := [ {| message := assistant text; finish_reason := stop_reason |} ];
        usage := {| prompt_tokens := prompt;
                    completion_tokens := completion;
                    total_tokens := total |} |}.

Definition _parse_titan_response (model : string) (data : json)
  : res BedrockResponse :=
  results <- Py.get data "results" (JList []) ;;
  text <- (if Py.truthy results
           then (first <- Py.index0 results ;; Py.get first "outputText" (JStr ""))
           else Ok (JStr "")) ;;
  Ok {| model := model;
        choices := [ {| message := assistant text; finish_reason := JStr "stop" |} ];
        usage := {| prompt_tokens := JInt 0;
                    completion_tokens := JInt 0;
                    total_tokens := JInt 0 |} |}.

Definition _parse_llama_response (model : string) (data : json)
  : res BedrockResponse :=
  text <- Py.get data "generation" (JStr "") ;;
  stop_reason <- Py.get data "stop_reason" (JStr "stop") ;;
  prompt <- Py.get data "prompt_token_count" (JInt 0) ;;
  completion <- Py.get data "generation_token_count" (JInt 0) ;;
  prompt_again <- Py.get data "prompt_token_count" (JInt 0) ;;
  generation_again <- Py.get data "generation_token_count" (JInt 0) ;;
  total <- Py.add prompt_again generation_again ;;
  Ok {| model := model;
        choices := [ {| message := assistant text; finish_reason := stop_reason |} ];
        usage := {| prompt_tokens := prompt;
                    completion_tokens := completion;
                    total_tokens := total |} |}.

(** [BedrockResponse.__init__(response_data, model)] *)
Definition __init__ (response_data : json) (model : string) : res BedrockResponse :=
  if PyStr.contains "anthropic" (PyStr.lower model)
  then _parse_anthropic_response model response_data
  else if PyStr.contains "amazon.titan" (PyStr.lower model)
  then _parse_titan_response model response_data
  else if PyStr.contains "meta.llama" (PyStr.lower model)
  then _parse_llama_response model response_data
  else Raise (Exn BedrockModelError ("Unsupported model type: " ++ model)).

End Response.

(** ** The request formatters of [class BedrockLLM] *)

Module Formatter.

(** One message of the caller: a dict with the keys ['role'] and
    ['content']. *)
Definition message := list (string * json).

(** The keyword arguments passed on by [completion]. *)
Definition kwargs := list (string * pyobj).

Definition nl : string := String (ascii_of_N 10) EmptyString.

(** The default of [kwargs.get('top_p', 0.9)]: the binary64 value the
    literal denotes. *)
Definition default_top_p : float := 0.9%float.

(** The loop of [_format_anthropic_request]: the system text seen so far
    and the messages appended so far. *)
Fixpoint anthropic_loop (messages : list message)
         (system_message : json) (formatted_messages : list pyobj)
  : res (json * list pyobj) :=
  match messages with
  | [] => Ok (system_message, formatted_messages)
  | msg :: rest =>
      r <- Py.getitem msg "role" ;;
      if Py.eq_str r "system"
      then (c <- Py.getitem msg "content" ;;
            anthropic_loop rest c formatted_messages)
      else (r' <- Py.getitem msg "role" ;;
            c <- Py.getitem msg "content" ;;
            anthropic_loop rest system_message
              (formatted_messages
                 ++ [PDict [("role", PJson r'); ("content", PJson c)]]))
  end.

Definition _format_anthropic_request (messages : list message)
           (temperature : float) (max_tokens : Z) (kw : kwargs) : res pyobj :=
  st <- anthropic_loop messages (JStr "") [] ;;
  let '(system_message, formatted_messages) := st in
  let body := [ ("messages", PList formatted_messages);
                ("max_tokens", PJson (JInt max_tokens));
                ("temperature", PFloat temperature);
                ("anthropic_version", PJson (JStr "bedrock-2023-05-31")) ] in
  if Py.truthy system_message
  then Ok (PDict (body ++ [("system", PJson system_message)]))
  else Ok (PDict body).

(** The loop of [_format_titan_request], on the prompt built so far. *)
Fixpoint titan_loop (messages : list message) (prompt : string) : res string :=
  match messages with
  | [] => Ok prompt
  | msg :: rest =>
      r <- Py.getitem msg "role" ;;
      if Py.eq_str r "system"
      then (c <- Py.getitem msg "content" ;;
            titan_loop rest (prompt ++ "System: " ++ Py.str c ++ nl ++ nl))
      else if Py.eq_str r "user"
      then (c <- Py.getitem msg "content" ;;
            titan_loop rest (prompt ++ "Human: " ++ Py.str c ++ nl ++ nl))
      else if Py.eq_str r "assistant"
      then (c <- Py.getitem msg "content" ;;
            titan_loop rest (prompt ++ "Assistant: " ++ Py.str c ++ nl ++ nl))
      else titan_loop rest prompt
  end.

Definition _format_titan_request (messages : list message)
           (temperature : float) (max_tokens : Z) (kw : kwargs) : res pyobj :=
  prompt <- titan_loop messages "" ;;
  let prompt := prompt ++ "Assistant: " in
  Ok (PDict
        [ ("inputText", PJson (JStr prompt));
          ("textGenerationConfig",
           PDict [ ("maxTokenCount", PJson (JInt max_tokens));
                   ("temperature", PFloat temperature);
                   ("topP", Py.dict_get kw "top_p" (PFloat default_top_p));
                   ("stopSequences", Py.dict_get kw "stop" (PJson (JList []))) ]) ]).

(** The loop of [_format_llama_request]. *)
Fixpoint llama_loop (messages : list message) (prompt : string) : res string :=
  match messages with
  | [] => Ok prompt
  | msg :: rest =>
      r <- Py.getitem msg "role" ;;
      if Py.eq_str r "system"
      then (c <- Py.getitem msg "content" ;;
            llama_loop rest
              (prompt ++ "<|begin_of_text|><|start_header_id|>system<|end_header_id|>"
                      ++ nl ++ Py.str c ++ "<|eot_id|>"))
      else if Py.eq_str r "user"
      then (c <- Py.getitem msg "content" ;;
            llama_loop rest
              (prompt ++ "<|start_header_id|>user<|end_header_id|>"
                      ++ nl ++ Py.str c ++ "<|eot_id|>"))
      else if Py.eq_str r "assistant"
      then (c <- Py.getitem msg "content" ;;
            llama_loop rest
              (prompt ++ "<|start_header_id|>assistant<|end_header_id|>"
                      ++ nl ++ Py.str c ++ "<|eot_id|>"))
      else llama_loop rest prompt
  end.

Definition _format_llama_request (messages : list message)
           (temperature : float) (max_tokens : Z) (kw : kwargs) : res pyobj :=
  prompt <- llama_loop messages "" ;;
  let prompt := prompt ++ "<|start_header_id|>assistant<|end_header_id|>" ++ nl in
  Ok (PDict [ ("prompt", PJson (JStr prompt));
              ("max_gen_len", PJson (JInt max_tokens));
              ("temperature", PFloat temperature);
              ("top_p", Py.dict_get kw "top_p" (PFloat default_top_p)) ]).

(** [_is_inference_profile(model_id)] *)
Definition regions : list string := ["us"; "eu"; "ap"; "ca"; "sa"; "af"; "me"].

Definition _is_inference_profile (model_id : string) : bool :=
  negb (String.eqb model_id EmptyString)
  && PyStr.contains "." model_id
  && existsb (fun region => PyStr.startswith model_id (region ++ ".")) regions.

End Formatter.

(** ** The streaming generator *)

Module Streaming.

(** One event of the event stream: either it has no ['chunk'] key, or
    its bytes are decoded and parsed, which gives a value or raises. *)
Inductive event :=
| NoChunk
| Chunk (payload : res json).

(** [response['body']]: the events the iterator delivers, and how the
    iteration ends: exhausted ([None]) or with an exception. *)
Record EventStream := { events : list event; ending : option exn }.

Record Delta := { content : json; role : string }.
Record Choice := { delta : Delta; finish_reason : option string }.
Record StreamingChunk := { choices : list Choice }.

Definition streaming_chunk (text : json) (finish : option string) : StreamingChunk :=
  {| choices := [ {| delta := {| content := text; role := "assistant" |};
                     finish_reason := finish |} ] |}.

Definition _parse_anthropic_streaming_chunk (chunk_data : json) : res json :=
  try_except
    (t <- Py.get_none chunk_data "type" ;;
     if Py.eq_str t "content_block_delta"
     then (delta <- Py.get chunk_data "delta" (JDict []) ;;
           Py.get delta "text" (JStr ""))
     else
       t <- Py.get_none chunk_data "type" ;;
       if Py.eq_str t "content_block_start" then Ok (JStr "")
       else
         t <- Py.get_none chunk_data "type" ;;
         if Py.eq_str t "message_delta" then Ok (JStr "")
         else
           has_completion <- Py.contains_key chunk_data "completion" ;;
           if has_completion : bool then Py.get chunk_data "completion" (JStr "")
           else
             has_delta <- Py.contains_key chunk_data "delta" ;;
             if has_delta : bool
             then (delta <- Py.get chunk_data "delta" (JDict []) ;;
                   Py.get delta "text" (JStr ""))
             else
               has_text <- Py.contains_key chunk_data "text" ;;
               if has_text : bool then Py.get chunk_data "text" (JStr "")
               else Ok (JStr ""))
    (fun _ => Ok (JStr "")).

Definition _parse_titan_streaming_chunk (chunk_data : json) : res json :=
  try_except (Py.get chunk_data "outputText" (JStr "")) (fun _ => Ok (JStr "")).

Definition _parse_llama_streaming_chunk (chunk_data : json) : res json :=
  try_except (Py.get chunk_data "generation" (JStr "")) (fun _ => Ok (JStr "")).

(** "Parse based on model type": the dispatch inside the loop. *)
Definition parse_by_model_type (model_id : string) (chunk_data : json) : res json :=
  if PyStr.contains "anthropic" (PyStr.lower model_id)
  then _parse_anthropic_streaming_chunk chunk_data
  else if PyStr.contains "amazon.titan" (PyStr.lower model_id)
  then _parse_titan_streaming_chunk chunk_data
  else if PyStr.contains "meta.llama" (PyStr.lower model_id)
  then _parse_llama_streaming_chunk chunk_data
  else Ok (JStr "").

(** The body of the [for] loop on one event: the chunks it yields (none
    or one), unless it raises. *)
Definition on_event (model_id : string) (ev : event) : res (list StreamingChunk) :=
  match ev with
  | NoChunk => Ok []
  | Chunk payload =>
      chunk_data <- payload ;;
      chunk_text <- parse_by_model_type model_id chunk_data ;;
      if Py.truthy chunk_text
      then Ok [streaming_chunk chunk_text None]
      else Ok []
  end.

Definition error_chunk (e : exn) : StreamingChunk :=
  streaming_chunk (JStr ("Streaming error: " ++ exn_msg e)) (Some "error").

Definition final_chunk : StreamingChunk :=
  streaming_chunk (JStr "") (Some "stop").

(** The generator, as the sequence of the chunks it yields.  An
    exception of the loop is caught, answered by the error chunk, and the
    generator returns; only the normal exit of the loop reaches the
    final chunk. *)
Fixpoint stream_loop (model_id : string) (evs : list event) (ending : option exn)
  : list StreamingChunk :=
  match evs with
  | [] =>
      match ending with
      | None => [final_chunk]
      | Some e => [error_chunk e]
      end
  | ev :: rest =>
      match on_event model_id ev with
      | Ok yielded => yielded ++ stream_loop model_id rest ending
      | Raise e => [error_chunk e]
      end
  end.

Definition _handle_streaming_response (response : EventStream) (model_id : string)
  : list StreamingChunk :=
  stream_loop model_id (events response) (ending response).

End Streaming.

(** ** The inference service and the state of the process *)

Inductive call :=
| ListInferenceProfiles
| InvokeModel (model_id : string) (body : pyobj)
| InvokeModelWithResponseStream (model_id : string) (body : pyobj).

(** The remote side.  Each oracle sees the calls made before it, so the
    same request can be answered differently over time. *)
Record Service :=
  { (* boto3.client('bedrock').list_inference_profiles() *)
    list_inference_profiles : list call -> res json;
    (* boto3.client('bedrock-runtime', region_name=...) *)
    create_client : list call -> res unit;
    (* invoke_model(...), with the body it returns read and parsed *)
    invoke_model : list call -> string -> pyobj -> res json;
    invoke_model_with_response_stream :
      list call -> string -> pyobj -> res Streaming.EventStream;
    (* os.environ *)
    environ : list (string * string) }.

(** What the process holds: the calls it has made (oldest first) and
    whether [BedrockLLM._client] is set. *)
Record State := { calls : list call; _client : bool }.

Definition initial : State := {| calls := []; _client := false |}.

(** Computations that read and extend the state and may raise. *)
Definition M (A : Type) : Type := State -> res A * State.

Definition ret {A} (a : A) : M A := fun st => (Ok a, st).

Definition raise {A} (e : exn) : M A := fun st => (Raise e, st).

Definition lift {A} (r : res A) : M A := fun st => (r, st).

Definition bindM {A B} (m : M A) (k : A -> M B) : M B :=
  fun st =>
    match m st with
    | (Ok a, st') => k a st'
    | (Raise e, st') => (Raise e, st')
    end.

Notation "x <~ m ;; k" := (bindM m (fun x => k))
  (at level 100, m at next level, right associativity).

(** [try: m except ...: h]: the state changes made before the exception
    stay. *)
Definition tryM {A} (m : M A) (h : exn -> M A) : M A :=
  fun st =>
    match m st with
    | (Ok a, st') => (Ok a, st')
    | (Raise e, st') => h e st'
    end.

(** A remote call: answered by the oracle, and logged. *)
Definition remote {A} (c : call) (answer : list call -> res A) : M A :=
  fun st => (answer (calls st), {| calls := calls st ++ [c]; _client := _client st |}).

(** ** The model resolver *)

Module Resolver.

Definition regions : list string := ["us"; "eu"; "ap"; "ca"; "sa"; "af"; "me"].

(** [any(m.startswith(f"{region}.") for region in [...])] *)
Definition has_region_prefix (m : string) : bool :=
  existsb (fun region => PyStr.startswith m (region ++ ".")) regions.

(** [for profile in j]: the elements a [for] loop visits. *)
Definition iterate (j : json) : res (list json) :=
  match j with
  | JList l => Ok l
  | JDict d => Ok (List.map (fun kv => JStr (fst kv)) d)
  | JStr s => Ok (List.map (fun c => JStr (String c EmptyString)) (list_ascii_of_string s))
  | _ => Raise (Exn TypeError ("'" ++ Py.type_name j ++ "' object is not iterable"))
  end.

(** [j[k]] for a string key [k] *)
Definition subscript (j : json) (k : string) : res json :=
  match j with
  | JDict d => Py.getitem d k
  | JList _ => Raise (Exn TypeError "list indices must be integers or slices, not str")
  | JStr _ => Raise (Exn TypeError "string indices must be integers, not 'str'")
  | _ => Raise (Exn TypeError ("'" ++ Py.type_name j ++ "' object is not subscriptable"))
  end.

(** The loop over the profile summaries, on the map built so far.  Only
    a string has the method [split], so the ids stored are strings. *)
Fixpoint index_profiles (summaries : list json) (profile_map : gmap string string)
  : res (gmap string string) :=
  match summaries with
  | [] => Ok profile_map
  | profile :: rest =>
      profile_id <- subscript profile "inferenceProfileId" ;;
      has_dot <- Py.contains_key profile_id "." ;;
      if has_dot : bool
      then match profile_id with
           | JStr id =>
               match PyStr.split1 "." id with
               | _ :: base_model :: _ =>
                   index_profiles rest (<[base_model := id]> profile_map)
               | _ => index_profiles rest profile_map
               end
           | _ => Raise (Py.no_attribute profile_id "split")
           end
      else index_profiles rest profile_map
  end.

(** [get_available_inference_profiles()]: whatever the listing or the
    indexing raises is caught and answered by the empty map. *)
Definition get_available_inference_profiles (svc : Service)
  : M (gmap string string) :=
  tryM
    (profiles <~ remote ListInferenceProfiles (list_inference_profiles svc) ;;
     summaries <~ lift (Py.get profiles "inferenceProfileSummaries" (JList [])) ;;
     items <~ lift (iterate summaries) ;;
     lift (index_profiles items ∅))
    (fun _ => ret ∅).

(** [get_best_model_id(requested_model)] *)
Definition get_best_model_id (svc : Service) (requested_model : string) : M string :=
  let clean_model := PyStr.replace "bedrock/" "" requested_model in
  if has_region_prefix clean_model
  then ret clean_model
  else
    profiles <~ get_available_inference_profiles svc ;;
    match profiles !! clean_model with
    | Some profile_id => ret profile_id
    | None => ret clean_model
    end.

End Resolver.

(** ** The gateway: [BedrockLLM.completion] *)

Module Gateway.

(** What [completion] returns: a response, or the generator of the
    streaming path (given by the chunks it yields when consumed). *)
Inductive outcome :=
| Completed (r : Response.BedrockResponse)
| Generator (chunks : list Streaming.StreamingChunk).

(** [except NoCredentialsError] *)
Definition is_no_credentials_error (e : exn) : bool :=
  match exn_cls e with
  | OtherError name => String.eqb name "NoCredentialsError"
  | _ => false
  end.

(** The property [BedrockLLM.client]: created on first use and kept.
    Only [NoCredentialsError] is caught; what else the creation raises
    goes on to the caller. *)
Definition client (svc : Service) : M unit :=
  fun st =>
    if _client st then (Ok tt, st)
    else match create_client svc (calls st) with
         | Ok _ => (Ok tt, {| calls := calls st; _client := true |})
         | Raise e =>
             if is_no_credentials_error e
             then (Raise (Exn BedrockAuthError
                            "AWS credentials not found. Please configure AWS credentials."),
                   st)
             else (Raise e, st)
         end.

(** [os.environ.get('BEDROCK_DISABLE_STREAMING', 'false').lower() == 'true'] *)
Definition disable_streaming (svc : Service) : bool :=
  String.eqb (PyStr.lower (Py.dict_get (environ svc) "BEDROCK_DISABLE_STREAMING" "false"))
             "true".

(** The [except ClientError] clause: other exceptions pass through. *)
Definition classify (e : exn) : exn :=
  match exn_cls e with
  | ClientError error_code =>
      if String.eqb error_code "ThrottlingException"
      then Exn BedrockRateLimitError ("Rate limit exceeded: " ++ exn_msg e)
      else if String.eqb error_code "ValidationException"
      then Exn BedrockModelError ("Invalid request: " ++ exn_msg e)
      else Exn BedrockLLMError ("Bedrock API error: " ++ exn_msg e)
  | _ => e
  end.

Definition completion (svc : Service) (model : string)
           (messages : list Formatter.message) (stream : bool)
           (temperature : float) (max_tokens : Z) (kw : Formatter.kwargs)
  : M outcome :=
  model_id <~ Resolver.get_best_model_id svc model ;;
  body <~ lift
    (if PyStr.contains "anthropic" (PyStr.lower model_id)
     then Formatter._format_anthropic_request messages temperature max_tokens kw
     else if PyStr.contains "amazon.titan" (PyStr.lower model_id)
     then Formatter._format_titan_request messages temperature max_tokens kw
     else if PyStr.contains "meta.llama" (PyStr.lower model_id)
     then Formatter._format_llama_request messages temperature max_tokens kw
     else Raise (Exn BedrockModelError ("Unsupported model: " ++ model_id))) ;;
  tryM
    (if stream && negb (disable_streaming svc)
     then
       response <~
         (if Formatter._is_inference_profile model_id
          then (_ <~ client svc ;;
                remote (InvokeModelWithResponseStream model_id body)
                       (fun log => invoke_model_with_response_stream svc log model_id body))
          else (_ <~ client svc ;;
                remote (InvokeModelWithResponseStream model_id body)
                       (fun log => invoke_model_with_response_stream svc log model_id body))) ;;
       ret (Generator (Streaming._handle_streaming_response response model_id))
     else
       response_body <~
         (if Formatter._is_inference_profile model_id
          then (_ <~ client svc ;;
                remote (InvokeModel model_id body)
                       (fun log => invoke_model svc log model_id body))
          else (_ <~ client svc ;;
                remote (InvokeModel model_id body)
                       (fun log => invoke_model svc log model_id body))) ;;
       r <~ lift (Response.__init__ response_body model) ;;
       ret (Completed r))
    (fun e => raise (classify e)).

End Gateway.

(** ** Vocabulary of the statements *)

(** The shapes of the native bodies, as far as the parsers depend on them. *)
Module Shape.

Definition is_object (j : json) : bool :=
  match j with JDict _ => true | _ => false end.

(** An integer (or a bool, which Python adds as one), or no entry. *)
Definition integer_or_absent (d : list (string * json)) (k : string) : bool :=
  match Py.lookup d k with
  | None => true
  | Some j => match Py.as_int j with Some _ => true | None => false end
  end.

(** Anthropic: a content list, if not empty, starts with an object;
    ['usage'], if present, is an object with integer token counts. *)
Definition anthropic_body (d : list (string * json)) : bool :=
  match Py.dict_get d "content" (JList []) with
  | JList (x :: _) => is_object x
  | _ => true
  end
  && match Py.lookup d "usage" with
     | None => true
     | Some (JDict u) =>
         integer_or_absent u "input_tokens" && integer_or_absent u "output_tokens"
     | Some _ => false
     end.

(** Titan: ['results'] is absent, empty, or a list that starts with an
    object. *)
Definition titan_body (d : list (string * json)) : bool :=
  match Py.dict_get d "results" (JList []) with
  | JList (x :: _) => is_object x
  | r => negb (Py.truthy r)
  end.

(** Llama: integer token counts, where present. *)
Definition llama_body (d : list (string * json)) : bool :=
  integer_or_absent d "prompt_token_count"
  && integer_or_absent d "generation_token_count".

(** The text the Anthropic parser reports for a body. *)
Definition anthropic_text (d : list (string * json)) : json :=
  match Py.dict_get d "content" (JList []) with
  | JList (JDict first :: _) => Py.dict_get first "text" (JStr "")
  | content => JStr (Py.str content)
  end.

Definition zero_usage : Response.Usage :=
  {| Response.prompt_tokens := JInt 0;
     Response.completion_tokens := JInt 0;
     Response.total_tokens := JInt 0 |}.

End Shape.

(** Inputs of the examples. *)

Definition system_msg (text : string) : Formatter.message :=
  [("role", JStr "system"); ("content", JStr text)].

Definition user_msg (text : string) : Formatter.message :=
  [("role", JStr "user"); ("content", JStr text)].

(** The shape the parser of a family expects; no shape for an
    unrecognised id. *)
Definition native_body (fam : option family) (d : list (string * json)) : bool :=
  match fam with
  | Some Anthropic => Shape.anthropic_body d
  | Some Titan => Shape.titan_body d
  | Some Llama => Shape.llama_body d
  | None => false
  end.

(** The Anthropic body of the specification's example. *)
Definition anthropic_hi : list (string * json) :=
  [ ("content", JList [JDict [("text", JStr "hi")]]);
    ("stop_reason", JStr "end_turn");
    ("usage", JDict [("input_tokens", JInt 3); ("output_tokens", JInt 2)]) ].

(** A Titan body: one result, and a token count the parser does not read. *)
Definition titan_ok : list (string * json) :=
  [ ("inputTextTokenCount", JInt 7);
    ("results", JList [JDict [("tokenCount", JInt 2); ("outputText", JStr "ok")]]) ].

(** The vocabulary of the streaming statements. *)
Module Chunks.

Import Streaming.

(** The text the loop reads from a decoded event; the family parsers
    answer their own exceptions with the empty string. *)
Definition delta_text (model_id : string) (chunk_data : json) : json :=
  match parse_by_model_type model_id chunk_data with
  | Ok text => text
  | Raise _ => JStr ""
  end.

(** An Anthropic event that marks the start of a block or carries
    message metadata. *)
Definition control_event (d : list (string * json)) : bool :=
  Py.eq_str (Py.dict_get d "type" JNull) "content_block_start"
  || Py.eq_str (Py.dict_get d "type" JNull) "message_delta".

(** Consuming the event does not raise. *)
Definition decodes (ev : event) : bool :=
  match ev with
  | Chunk (Raise _) => false
  | _ => true
  end.

(** The chunks one event contributes. *)
Definition yielded (model_id : string) (ev : event) : list StreamingChunk :=
  match on_event model_id ev with
  | Ok out => out
  | Raise _ => []
  end.

Definition per_event_chunks (model_id : string) (evs : list event)
  : list StreamingChunk :=
  List.concat (List.map (yielded model_id) evs).

(** A chunk is terminal when its one choice has a finish reason. *)
Definition terminal (c : StreamingChunk) : bool :=
  match choices c with
  | [ch] => match finish_reason ch with Some _ => true | None => false end
  | _ => false
  end.

Definition non_terminal (c : StreamingChunk) : bool :=
  match choices c with
  | [ch] => match finish_reason ch with Some _ => false | None => true end
  | _ => false
  end.

Definition block_start : event :=
  Chunk (Ok (JDict [("type", JStr "content_block_start"); ("index", JInt 0)])).

Definition text_delta (text : string) : event :=
  Chunk (Ok (JDict [ ("type", JStr "content_block_delta");
                     ("delta", JDict [("type", JStr "text_delta"); ("text", JStr text)]) ])).

Definition broken : exn := Exn (OtherError "EventStreamError") "connection reset".

End Chunks.

(** The vocabulary of the resolver statements. *)
Module Resolving.

(** The gateway marker [replace] removes. *)
Definition gateway : string := "bedrock/".

(** What the resolver looks up: the requested id without the marker. *)
Definition clean (requested_model : string) : string :=
  PyStr.replace gateway "" requested_model.

(** The state after one more call. *)
Definition logged (st : State) (c : call) : State :=
  {| calls := (calls st ++ [c])%list; _client := _client st |}.


(** A listing with one qualified deployment. *)
Definition one_profile : json :=
  JDict [ ("inferenceProfileSummaries",
           JList [JDict [("inferenceProfileId", JStr "us.anthropic.claude-3-haiku")]]) ].

(** A service that answers every listing with [listing]. *)
Definition service_with (listing : res json) : Service :=
  {| list_inference_profiles := fun _ => listing;
     create_client := fun _ => Ok tt;
     invoke_model := fun _ _ _ => Ok (JDict anthropic_hi);
     invoke_model_with_response_stream :=
       fun _ _ _ => Ok {| Streaming.events := []; Streaming.ending := None |};
     environ := [] |}.

Definition listing_down : exn := Exn (ClientError "AccessDeniedException") "not authorized".





End Resolving.

(** A message that has both keys. *)
Definition well_formed (msg : Formatter.message) : bool :=
  Py.has_key msg "role" && Py.has_key msg "content".

(** The content of the last system message, [sys] if there is none. *)
Fixpoint last_system (messages : list Formatter.message) (sys : json) : json :=
  match messages with
  | [] => sys
  | msg :: rest =>
      if Py.eq_str (Py.dict_get msg "role" JNull) "system"
      then last_system rest (Py.dict_get msg "content" JNull)
      else last_system rest sys
  end.

(** ** The helpers of the module: environment check and token estimates *)

Module Util.

(** [os.environ.get(k)] as a condition: the variable is set, and not to
    the empty string. *)
Definition env_set (environ : list (string * string)) (k : string) : bool :=
  match Py.lookup environ k with
  | Some v => negb (String.eqb v EmptyString)
  | None => false
  end.

(** [is_bedrock_model(model_name)], local to [validate_environment] *)
Definition is_bedrock_model (model_name : string) : bool :=
  PyStr.startswith model_name "bedrock/"
  || existsb (fun region => PyStr.startswith model_name (region ++ "."))
             ["us"; "eu"; "ap"; "ca"; "sa"; "af"; "me"].

(** The dict [validate_environment] returns. *)
Record Validation := { keys_in_environment : bool; missing_keys : list string }.

(** [validate_environment(model)].  [get_credentials] is what
    [boto3.Session().get_credentials()] answers: credentials ([Ok true]),
    [None] ([Ok false]), or an exception, which the bare [except] catches. *)
Definition validate_environment (environ : list (string * string))
           (get_credentials : res bool) (model : string) : Validation :=
  if negb (is_bedrock_model model)
  then {| keys_in_environment := false; missing_keys := ["BEDROCK_MODEL_REQUIRED"] |}
  else
    let '(missing, found) :=
      if negb (env_set environ "AWS_ACCESS_KEY_ID"
               && env_set environ "AWS_SECRET_ACCESS_KEY")
      then
        if negb (env_set environ "AWS_PROFILE")
        then match get_credentials with
             | Ok false => (["AWS_ACCESS_KEY_ID"; "AWS_SECRET_ACCESS_KEY"], [])
             | Ok true => ([], ["AWS_IAM_ROLE"])
             | Raise _ => (["AWS_ACCESS_KEY_ID"; "AWS_SECRET_ACCESS_KEY"], [])
             end
        else ([], ["AWS_PROFILE"])
      else ([], ["AWS_ACCESS_KEY_ID"; "AWS_SECRET_ACCESS_KEY"]) in
    {| keys_in_environment := match found : list string with [] => false | _ => true end;
       missing_keys := missing |}.

(** [encode(model, text)]: [list(range(len(text) // 4))] *)
Definition encode (model text : string) : list nat :=
  List.seq 0 (String.length text / 4).

(** [token_counter(model, messages)] *)
Definition token_counter (model : string) (messages : list (list (string * json)))
  : nat :=
  list_sum
    (List.map (fun msg => String.length (Py.str (Py.dict_get msg "content" (JStr ""))))
              messages)
  / 4.

End Util.

(** The vocabulary of the formatter statements. *)
Module Prompt.

Import Formatter.

Definition role_of (msg : message) : json := Py.dict_get msg "role" JNull.

Definition content_of (msg : message) : json := Py.dict_get msg "content" JNull.

Definition is_system (msg : message) : bool := Py.eq_str (role_of msg) "system".

(** One of the three roles the Titan and Llama formatters write out. *)
Definition known_role (msg : message) : bool :=
  Py.eq_str (role_of msg) "system"
  || Py.eq_str (role_of msg) "user"
  || Py.eq_str (role_of msg) "assistant".

(** The message has a role, and a content when its role is written out. *)
Definition readable (msg : message) : bool :=
  Py.has_key msg "role" && (Py.has_key msg "content" || negb (known_role msg)).

(** The lines a message adds to the Titan prompt. *)
Definition titan_block (msg : message) : string :=
  if Py.eq_str (role_of msg) "system"
  then "System: " ++ Py.str (content_of msg) ++ nl ++ nl
  else if Py.eq_str (role_of msg) "user"
  then "Human: " ++ Py.str (content_of msg) ++ nl ++ nl
  else if Py.eq_str (role_of msg) "assistant"
  then "Assistant: " ++ Py.str (content_of msg) ++ nl ++ nl
  else "".

(** The markup a message adds to the Llama prompt. *)
Definition llama_block (msg : message) : string :=
  if Py.eq_str (role_of msg) "system"
  then "<|begin_of_text|><|start_header_id|>system<|end_header_id|>"
         ++ nl ++ Py.str (content_of msg) ++ "<|eot_id|>"
  else if Py.eq_str (role_of msg) "user"
  then "<|start_header_id|>user<|end_header_id|>"
         ++ nl ++ Py.str (content_of msg) ++ "<|eot_id|>"
  else if Py.eq_str (role_of msg) "assistant"
  then "<|start_header_id|>assistant<|end_header_id|>"
         ++ nl ++ Py.str (content_of msg) ++ "<|eot_id|>"
  else "".

(** The entry of the Anthropic [messages] list for a message. *)
Definition forwarded (msg : message) : pyobj :=
  PDict [("role", PJson (role_of msg)); ("content", PJson (content_of msg))].

(** The request body a completion sends for a resolved id. *)
Definition request_body (model_id : string) (messages : list message)
           (temperature : float) (max_tokens : Z) (kw : kwargs) : res pyobj :=
  match family_of model_id with
  | Some Anthropic => _format_anthropic_request messages temperature max_tokens kw
  | Some Titan => _format_titan_request messages temperature max_tokens kw
  | Some Llama => _format_llama_request messages temperature max_tokens kw
  | None => Raise (Exn BedrockModelError ("Unsupported model: " ++ model_id))
  end.

(** A message with a role of its own, and one without a role. *)
Definition tool_msg : message := [("role", JStr "tool"); ("content", JStr "42")].

Definition no_role_msg : message := [("content", JStr "hi")].

End Prompt.

(** The blocks of a message list, one after the other. *)
Definition blocks (block : Formatter.message -> string)
           (messages : list Formatter.message) : string :=
  List.fold_right (fun msg rest => block msg ++ rest) EmptyString messages.

(** The messages the Anthropic formatter forwards: all but the system
    messages. *)
Definition forwarded_messages (messages : list Formatter.message) : list pyobj :=
  List.map Prompt.forwarded (List.filter (fun msg => negb (Prompt.is_system msg)) messages).

(** The vocabulary of the listing statements. *)
Module Listing.

(** The id a profile summary lists: the summary is an object whose
    ['inferenceProfileId'] is a string. *)
Definition listed_id (summary : json) : option string :=
  match summary with
  | JDict d =>
      match Py.lookup d "inferenceProfileId" with
      | Some (JStr id) => Some id
      | _ => None
      end
  | _ => None
  end.

(** The base id of a listed id: what follows its first dot. *)
Definition base_of (id : string) : option string :=
  match PyStr.split1 "." id with
  | _ :: base :: _ => Some base
  | _ => None
  end.

(** The index of a list of ids: a later id replaces an earlier one of the
    same base. *)
Definition index_ids (ids : list string) (m : gmap string string) : gmap string string :=
  List.fold_left
    (fun m id => match base_of id with Some base => <[base := id]> m | None => m end)
    ids m.

(** Every entry of an index is its key behind a prefix without a dot and
    a dot. *)
Definition qualified_entries (m : gmap string string) : Prop :=
  forall base id : string,
    m !! base = Some id ->
    exists region, id = region ++ "." ++ base /\ PyStr.contains "." region = false.

Definition summary (id : string) : json :=
  JDict [("inferenceProfileName", JStr "profile"); ("inferenceProfileId", JStr id)].

(** A listing of two deployments of one base id and one of another. *)
Definition three_profiles : json :=
  JDict [ ("inferenceProfileSummaries",
           JList [ summary "us.anthropic.claude-3-haiku";
                   summary "eu.anthropic.claude-3-haiku";
                   summary "us.meta.llama3-8b" ]) ].

(** A listing whose second summary has no id. *)
Definition damaged_listing : json :=
  JDict [ ("inferenceProfileSummaries",
           JList [ summary "us.anthropic.claude-3-haiku";
                   JDict [("inferenceProfileName", JStr "profile")] ]) ].

End Listing.

(** A summary without an id to read: not an object, or an object without
    the key. *)
Definition lacks_id (summary : json) : bool :=
  match summary with
  | JDict d => negb (Py.has_key d "inferenceProfileId")
  | _ => true
  end.

(** The vocabulary of the gateway statements. *)
Module Calls.

(** The completion takes the streaming path. *)
Definition streamed (svc : Service) (stream : bool) : bool :=
  stream && negb (Gateway.disable_streaming svc).

(** The transport call of a path. *)
Definition invocation (streaming : bool) (model_id : string) (body : pyobj) : call :=
  if streaming
  then InvokeModelWithResponseStream model_id body
  else InvokeModel model_id body.

(** What the transport call of a path raises, if it raises. *)
Definition transport_error (svc : Service) (log : list call) (streaming : bool)
           (model_id : string) (body : pyobj) : option exn :=
  if streaming
  then match invoke_model_with_response_stream svc log model_id body with
       | Raise e => Some e
       | Ok _ => None
       end
  else match invoke_model svc log model_id body with
       | Raise e => Some e
       | Ok _ => None
       end.

(** What the [except ClientError] clause raises for an error code. *)
Definition classified (error_code message : string) : exn :=
  if String.eqb error_code "ThrottlingException"
  then Exn BedrockRateLimitError ("Rate limit exceeded: " ++ message)
  else if String.eqb error_code "ValidationException"
  then Exn BedrockModelError ("Invalid request: " ++ message)
  else Exn BedrockLLMError ("Bedrock API error: " ++ message).

Definition is_client_error (e : exn) : bool :=
  match exn_cls e with ClientError _ => true | _ => false end.

(** The message of [BedrockAuthError]. *)
Definition no_credentials : exn :=
  Exn BedrockAuthError "AWS credentials not found. Please configure AWS credentials.".

(** A service whose transport answers every call with [answer]. *)
Definition transport_with (answer : res json) : Service :=
  {| list_inference_profiles := fun _ => Ok Resolving.one_profile;
     create_client := fun _ => Ok tt;
     invoke_model := fun _ _ _ => answer;
     invoke_model_with_response_stream :=
       fun _ _ _ => match answer with
                    | Ok _ => Ok {| Streaming.events := []; Streaming.ending := None |}
                    | Raise e => Raise e
                    end;
     environ := [] |}.

Definition throttled : exn :=
  Exn (ClientError "ThrottlingException") "An error occurred (ThrottlingException)".

Definition unreachable : exn :=
  Exn (OtherError "EndpointConnectionError") "Could not connect to the endpoint URL".

(** A service without credentials. *)
Definition no_credentials_service : Service :=
  {| list_inference_profiles := fun _ => Ok Resolving.one_profile;
     create_client := fun _ => Raise (Exn (OtherError "NoCredentialsError")
                                          "Unable to locate credentials");
     invoke_model := fun _ _ _ => Ok (JDict anthropic_hi);
     invoke_model_with_response_stream :=
       fun _ _ _ => Ok {| Streaming.events := []; Streaming.ending := None |};
     environ := [] |}.

(** A service with streaming switched off in the environment. *)
Definition streaming_off_service : Service :=
  {| list_inference_profiles := fun _ => Ok Resolving.one_profile;
     create_client := fun _ => Ok tt;
     invoke_model := fun _ _ _ => Ok (JDict anthropic_hi);
     invoke_model_with_response_stream :=
       fun _ _ _ => Ok {| Streaming.events := []; Streaming.ending := None |};
     environ := [("BEDROCK_DISABLE_STREAMING", "True")] |}.

End Calls.

(** The text a consumer of the generator puts together. *)
Module Text.

Import Streaming.

Definition chunk_text (c : StreamingChunk) : string :=
  match choices c with
  | [ch] => Py.str (content (delta ch))
  | _ => ""
  end.

(** The texts of the chunks, one after the other. *)
Definition joined (chunks : list StreamingChunk) : string :=
  List.fold_right (fun c rest => chunk_text c ++ rest) "" chunks.

(** The string an event carries for a deployment: none for an event that
    raises or whose recognised text is not a string. *)
Definition event_string (model_id : string) (ev : event) : option string :=
  match ev with
  | NoChunk => Some ""
  | Chunk (Ok data) =>
      match Chunks.delta_text model_id data with
      | JStr s => Some s
      | _ => None
      end
  | Chunk (Raise _) => None
  end.

End Text.

(** The characters [token_counter] counts for a message. *)
Definition counted (msg : list (string * json)) : nat :=
  String.length (Py.str (Py.dict_get msg "content" (JStr ""))).

(** An environment with an empty profile name. *)
Definition empty_profile : list (string * string) :=
  [("AWS_PROFILE", ""); ("AWS_DEFAULT_REGION", "us-west-2")].

Definition profile_env : list (string * string) := [("AWS_PROFILE", "dev")].

(** The text the Titan parser reports for a body. *)
Definition titan_text (d : list (string * json)) : json :=
  match Py.dict_get d "results" (JList []) with
  | JList (JDict first :: _) => Py.dict_get first "outputText" (JStr "")
  | _ => JStr ""
  end.

(** A Llama body, and a Titan body with two results. *)
Definition llama_ok : list (string * json) :=
  [ ("generation", JStr "ok"); ("prompt_token_count", JInt 7);
    ("generation_token_count", JInt 2); ("stop_reason", JStr "length") ].

Definition titan_two_results : list (string * json) :=
  [ ("results", JList [ JDict [("outputText", JStr "one")];
                        JDict [("outputText", JStr "two")] ]) ].

(** ** The knowledge-graph client ([codefind/bedrock_knowledge_graph.py]):
    configuration, retrieval settings and content extraction *)

Module KnowledgeGraph.

(** [@dataclass KnowledgeGraphConfig] *)
Record KnowledgeGraphConfig :=
  { knowledge_base_id : string;
    region_name : string;
    max_results : Z;
    search_type : string;
    enable_reranking : bool;
    reranking_model_arn : option string;
    guardrail_id : option string;
    guardrail_version : option string }.

Definition ValueError (message : string) : exn := Exn (OtherError "ValueError") message.

(** [_validate_config()] *)
Definition _validate_config (config : KnowledgeGraphConfig) : res unit :=
  if String.eqb (knowledge_base_id config) ""
  then Raise (ValueError "knowledge_base_id is required")
  else if negb (existsb (String.eqb (search_type config)) ["HYBRID"; "SEMANTIC"])
  then Raise (ValueError "search_type must be either 'HYBRID' or 'SEMANTIC'")
  else if (max_results config <? 1) || (max_results config >? 100)
  then Raise (ValueError "max_results must be between 1 and 100")
  else Ok tt.

(** [min(max_results, 25)]: the first argument unless 25 is smaller; only
    integers (and bools) compare with 25. *)
Definition min_25 (max_results : json) : res json :=
  match max_results with
  | JInt n => Ok (if 25 <? n then JInt 25 else JInt n)
  | JBool b => Ok (JBool b)
  | _ => Raise (Exn TypeError
                    ("'<' not supported between instances of 'int' and '"
                       ++ Py.type_name max_results ++ "'"))
  end.

(** An optional string as a condition: not [None] and not empty. *)
Definition given (s : option string) : bool :=
  match s with
  | Some v => negb (String.eqb v "")
  | None => false
  end.

Definition text_of (s : option string) : json :=
  match s with Some v => JStr v | None => JNull end.

(** [_build_retrieval_config], on its keyword arguments *)
Definition _build_retrieval_config (config : KnowledgeGraphConfig)
           (kwargs : list (string * json)) : res json :=
  let max_results := Py.dict_get kwargs "max_results" (JInt (max_results config)) in
  let search_type := Py.dict_get kwargs "search_type" (JStr (search_type config)) in
  let vector_config :=
    [("numberOfResults", max_results); ("overrideSearchType", search_type)] in
  vector_config <-
    (if enable_reranking config && given (reranking_model_arn config)
     then (reranked <- min_25 max_results ;;
           Ok (List.app vector_config
                 [ ("rerankingConfiguration",
                       JDict [ ("type", JStr "BEDROCK_RERANKING_MODEL");
                               ("bedrockRerankingConfiguration",
                                JDict [ ("modelConfiguration",
                                         JDict [("modelArn",
                                                 text_of (reranking_model_arn config))]);
                                        ("numberOfRerankedResults", reranked) ]) ]) ]))
     else Ok vector_config) ;;
  Ok (JDict [("vectorSearchConfiguration", JDict vector_config)]).

(** One line of a structured row. *)
Definition row_line (row : json) : res string :=
  name <- Py.get row "columnName" (JStr "") ;;
  value <- Py.get row "columnValue" (JStr "") ;;
  Ok (Py.str name ++ ": " ++ Py.str value).

(** The list comprehension: every row in turn, until one raises. *)
Fixpoint row_lines (rows : list json) : res (list string) :=
  match rows with
  | [] => Ok []
  | row :: rest =>
      line <- row_line row ;;
      lines <- row_lines rest ;;
      Ok (line :: lines)
  end.

(** [_extract_content(content_data)] *)
Definition _extract_content (content_data : list (string * json)) : res json :=
  if Py.has_key content_data "text"
  then Py.getitem content_data "text"
  else if Py.has_key content_data "byteContent"
  then Ok (JStr ("[Binary content: "
                   ++ Py.str (Py.dict_get content_data "type" (JStr "unknown")) ++ "]"))
  else if Py.has_key content_data "row"
  then (rows <- Py.getitem content_data "row" ;;
        if Py.truthy rows
        then (items <- Resolver.iterate rows ;;
              lines <- row_lines items ;;
              Ok (JStr (PyStr.join Formatter.nl lines)))
        else Ok (JStr ""))
  else Ok (JStr "").

End KnowledgeGraph.

(** A configuration with reranking, and contents of the three kinds. *)
Definition reranking_config : KnowledgeGraph.KnowledgeGraphConfig :=
  {| KnowledgeGraph.knowledge_base_id := "KB12345";
     KnowledgeGraph.region_name := "us-west-2";
     KnowledgeGraph.max_results := 40;
     KnowledgeGraph.search_type := "HYBRID";
     KnowledgeGraph.enable_reranking := true;
     KnowledgeGraph.reranking_model_arn := Some "arn:aws:bedrock:us-west-2::rerank";
     KnowledgeGraph.guardrail_id := None;
     KnowledgeGraph.guardrail_version := None |}.

Definition text_and_row : list (string * json) :=
  [ ("row", JList [JDict [("columnName", JStr "id"); ("columnValue", JInt 7)]]);
    ("text", JStr "seven") ].

Definition two_rows : list (string * json) :=
  [ ("row", JList [ JDict [("columnName", JStr "id"); ("columnValue", JInt 7)];
                    JDict [("columnName", JStr "name")] ]) ].

(** The line [_extract_content] writes for a row that is an object. *)
Definition line_of (row : json) : string :=
  match row with
  | JDict r =>
      Py.str (Py.dict_get r "columnName" (JStr "")) ++ ": "
        ++ Py.str (Py.dict_get r "columnValue" (JStr ""))
  | _ => ""
  end.

(** The reranking entry of a retrieval configuration. *)
Definition reranking_entry (arn : option string) (reranked : json) : string * json :=
  ("rerankingConfiguration",
   JDict [ ("type", JStr "BEDROCK_RERANKING_MODEL");
           ("bedrockRerankingConfiguration",
            JDict [ ("modelConfiguration",
                     JDict [("modelArn", KnowledgeGraph.text_of arn)]);
                    ("numberOfRerankedResults", reranked) ]) ]).

(** ** Credential detection ([codefind/onboarding.py]) *)

Module Onboarding.

(** [str.strip()]: the white space among the code points below 256. *)
Definition is_space (c : ascii) : bool :=
  existsb (N.eqb (PyStr.code c)) [9; 10; 11; 12; 13; 28; 29; 30; 31; 32; 133; 160]%N.

Fixpoint lstrip (s : string) : string :=
  match s with
  | EmptyString => EmptyString
  | String c rest => if is_space c then lstrip rest else s
  end.

Fixpoint rstrip (s : string) : string :=
  match s with
  | EmptyString => EmptyString
  | String c rest =>
      match rstrip rest with
      | EmptyString => if is_space c then EmptyString else String c EmptyString
      | kept => String c kept
      end
  end.

Definition strip (s : string) : string := rstrip (lstrip s).

(** [os.environ.get(k, default)] *)
Definition environ_get (environ : list (string * string)) (k default : string)
  : string :=
  match Py.lookup environ k with
  | Some v => v
  | None => default
  end.

(** [s or default], on a string and on an optional string. *)
Definition or_else (s default : string) : string :=
  if String.eqb s EmptyString then default else s.

Definition or_else_opt (s : option string) (default : string) : string :=
  match s with
  | Some v => or_else v default
  | None => default
  end.

(** The dict [cred_info]. *)
Record cred_info :=
  { has_credentials : bool;
    method : option string;
    profile : option string;
    region : option string }.

(** What [subprocess.run(..., capture_output=True, text=True)] returns. *)
Record CompletedProcess := { returncode : Z; stdout : string }.

(** [except (subprocess.TimeoutExpired, FileNotFoundError)] *)
Definition caught (e : exn) : bool :=
  match exn_cls e with
  | OtherError name =>
      String.eqb name "TimeoutExpired" || String.eqb name "FileNotFoundError"
  | _ => false
  end.

(** The region of the configured CLI: the inner [try] with its bare
    [except]. *)
Definition cli_region (configure_get_region : res CompletedProcess) : string :=
  match configure_get_region with
  | Ok region_result =>
      if returncode region_result =? 0
      then or_else (strip (stdout region_result)) "us-west-2"
      else "us-west-2"
  | Raise _ => "us-west-2"
  end.

(** [check_aws_credentials()].  The four calls it can make are given by
    what they answer: [aws sts get-caller-identity], [aws configure get
    region], [boto3.Session().get_credentials()] as a condition (with the
    import of boto3), and [session.region_name].  The last [try] writes
    into [cred_info] before it reads the region, so an exception there
    leaves the two entries written. *)
Definition check_aws_credentials (environ : list (string * string))
           (get_caller_identity configure_get_region : res CompletedProcess)
           (get_credentials : res bool) (region_name : res (option string))
  : res cred_info :=
  if Util.env_set environ "AWS_ACCESS_KEY_ID"
     && Util.env_set environ "AWS_SECRET_ACCESS_KEY"
  then Ok {| has_credentials := true;
             method := Some "environment_variables";
             profile := None;
             region := Some (environ_get environ "AWS_DEFAULT_REGION" "us-west-2") |}
  else if Util.env_set environ "AWS_PROFILE"
  then Ok {| has_credentials := true;
             method := Some "aws_profile";
             profile := Py.lookup environ "AWS_PROFILE";
             region := Some (environ_get environ "AWS_DEFAULT_REGION" "us-west-2") |}
  else
    let iam_role :=
      match get_credentials with
      | Ok true =>
          match region_name with
          | Ok name =>
              {| has_credentials := true; method := Some "iam_role";
                 profile := None;
                 region := Some (or_else_opt name "us-west-2") |}
          | Raise _ =>
              {| has_credentials := true; method := Some "iam_role";
                 profile := None; region := None |}
          end
      | Ok false | Raise _ =>
          {| has_credentials := false; method := None;
             profile := None; region := None |}
      end in
    match get_caller_identity with
    | Ok result =>
        if returncode result =? 0
        then Ok {| has_credentials := true; method := Some "aws_cli";
                   profile := None;
                   region := Some (cli_region configure_get_region) |}
        else Ok iam_role
    | Raise e => if caught e then Ok iam_role else Raise e
    end.

(** [try_to_select_default_model()] *)
Definition try_to_select_default_model (environ : list (string * string))
           (get_caller_identity configure_get_region : res CompletedProcess)
           (get_credentials : res bool) (region_name : res (option string))
  : res (option string) :=
  cred_info <- check_aws_credentials environ get_caller_identity
                 configure_get_region get_credentials region_name ;;
  Ok (if has_credentials cred_info
      then Some "bedrock/us.anthropic.claude-3-7-sonnet-20250109-v1:0"
      else None).

End Onboarding.

(** The CLI is not installed, and the session has credentials but cannot
    tell its region. *)
Definition cli_missing : res Onboarding.CompletedProcess :=
  Raise (Exn (OtherError "FileNotFoundError") "[Errno 2] No such file or directory: 'aws'").

Definition region_unreadable : res (option string) :=
  Raise (Exn (OtherError "ConfigParseError") "Unable to parse config file").

(** * Properties *)

(** ** The error monad *)

Lemma bind_Ok {A B} (m : res A) (k : A -> res B) (b : B) :
  bind m k = Ok b -> exists a, m = Ok a /\ k a = Ok b.
Proof. destruct m as [a|e]; simpl; [eauto | discriminate]. Qed.

Lemma bind_Ok_l {A B} (a : A) (k : A -> res B) : bind (Ok a) k = k a.
Proof. reflexivity. Qed.

Lemma get_object (d : list (string * json)) (k : string) (v : json) :
  Py.get (JDict d) k v = Ok (Py.dict_get d k v).
Proof. reflexivity. Qed.

Lemma try_except_total {A} (m : res A) (a0 : A) :
  exists a, try_except m (fun _ => Ok a0) = Ok a.
Proof. destruct m; simpl; eauto. Qed.

(** ** Families *)

Lemma family_of_None (m : string) :
  family_of m = None ->
  PyStr.contains "anthropic" (PyStr.lower m) = false
  /\ PyStr.contains "amazon.titan" (PyStr.lower m) = false
  /\ PyStr.contains "meta.llama" (PyStr.lower m) = false.
Proof.
  unfold family_of.
  destruct (PyStr.contains "anthropic" _); [discriminate|].
  destruct (PyStr.contains "amazon.titan" _); [discriminate|].
  destruct (PyStr.contains "meta.llama" _); [discriminate|].
  auto.
Qed.

Lemma init_by_family (data : json) (model : string) :
  Response.__init__ data model =
    match family_of model with
    | Some Anthropic => Response._parse_anthropic_response model data
    | Some Titan => Response._parse_titan_response model data
    | Some Llama => Response._parse_llama_response model data
    | None => Raise (Exn BedrockModelError ("Unsupported model type: " ++ model))
    end.
Proof.
  unfold Response.__init__, family_of.
  destruct (PyStr.contains "anthropic" _); [reflexivity|].
  destruct (PyStr.contains "amazon.titan" _); [reflexivity|].
  destruct (PyStr.contains "meta.llama" _); reflexivity.
Qed.

(** ** The request formatters *)

(** A system message overwrites the system text collected before it. *)
Lemma anthropic_loop_system_overwrites
      (c : json) (rest : list Formatter.message) (earlier : json) (acc : list pyobj) :
  Formatter.anthropic_loop
    ([("role", JStr "system"); ("content", c)] :: rest) earlier acc
  = Formatter.anthropic_loop rest c acc.
Proof. reflexivity. Qed.

Lemma getitem_has_key {V} (d : list (string * V)) (k : string) (default : V) :
  Py.has_key d k = true -> Py.getitem d k = Ok (Py.dict_get d k default).
Proof.
  unfold Py.has_key, Py.getitem, Py.dict_get.
  destruct (Py.lookup d k); [reflexivity | discriminate].
Qed.

(** What the loop leaves as system text: the content of the last system
    message, whatever the system messages before it said. *)
Lemma anthropic_loop_system_is_last
      (messages : list Formatter.message) (sys : json) (acc : list pyobj) :
  forallb well_formed messages = true ->
  exists formatted,
    Formatter.anthropic_loop messages sys acc = Ok (last_system messages sys, formatted).
Proof.
  revert sys acc.
  induction messages as [|msg rest IH]; intros sys acc H; [simpl; eauto|].
  cbn [forallb] in H. apply andb_prop in H as [W R].
  unfold well_formed in W. apply andb_prop in W as [Wr Wc].
  cbn [Formatter.anthropic_loop last_system].
  rewrite (getitem_has_key msg "role" JNull Wr), bind_Ok_l.
  destruct (Py.eq_str (Py.dict_get msg "role" JNull) "system").
  - rewrite (getitem_has_key msg "content" JNull Wc), bind_Ok_l. apply IH, R.
  - rewrite bind_Ok_l, (getitem_has_key msg "content" JNull Wc), bind_Ok_l.
    apply IH, R.
Qed.

(** C1, on the code: with two system messages the Anthropic request
    carries only the text of the last one as its [system] field; the text
    of the first is in no field of the body. *)
Theorem anthropic_request_keeps_last_system_only :
  Formatter._format_anthropic_request
    [system_msg "A"; system_msg "B"; user_msg "hi"] 0%float 4096 []
  = Ok (PDict [ ("messages",
                 PList [PDict [("role", PJson (JStr "user"));
                               ("content", PJson (JStr "hi"))]]);
                ("max_tokens", PJson (JInt 4096));
                ("temperature", PFloat 0%float);
                ("anthropic_version", PJson (JStr "bedrock-2023-05-31"));
                ("system", PJson (JStr "B")) ]).
Proof. reflexivity. Qed.

(** The sibling formatter keeps both system messages. *)
Lemma titan_request_keeps_every_system :
  Formatter._format_titan_request
    [system_msg "A"; system_msg "B"; user_msg "hi"] 0%float 4096 []
  = Ok (PDict
          [ ("inputText",
             PJson (JStr ("System: A" ++ Formatter.nl ++ Formatter.nl
                            ++ "System: B" ++ Formatter.nl ++ Formatter.nl
                            ++ "Human: hi" ++ Formatter.nl ++ Formatter.nl
                            ++ "Assistant: ")));
            ("textGenerationConfig",
             PDict [ ("maxTokenCount", PJson (JInt 4096));
                     ("temperature", PFloat 0%float);
                     ("topP", PFloat Formatter.default_top_p);
                     ("stopSequences", PJson (JList [])) ]) ]).
Proof. reflexivity. Qed.

(** C9: from the empty message list each of the three formatters returns
    a body (it does not raise): Anthropic an empty [messages] list and no
    [system] field, Titan and Llama a prompt that is only the trailing
    assistant cue; max tokens and temperature are present, and [topP] and
    the stop sequences are the caller's or default to 0.9 and the empty
    list. *)
Theorem empty_message_list_builds_minimal_body :
  forall (temperature : float) (max_tokens : Z) (kw : Formatter.kwargs),
    Formatter._format_anthropic_request [] temperature max_tokens kw
    = Ok (PDict [ ("messages", PList []);
                  ("max_tokens", PJson (JInt max_tokens));
                  ("temperature", PFloat temperature);
                  ("anthropic_version", PJson (JStr "bedrock-2023-05-31")) ])
    /\ Formatter._format_titan_request [] temperature max_tokens kw
       = Ok (PDict
               [ ("inputText", PJson (JStr "Assistant: "));
                 ("textGenerationConfig",
                  PDict [ ("maxTokenCount", PJson (JInt max_tokens));
                          ("temperature", PFloat temperature);
                          ("topP", match Py.lookup kw "top_p" with
                                   | Some p => p
                                   | None => PFloat 0.9%float
                                   end);
                          ("stopSequences", match Py.lookup kw "stop" with
                                            | Some s => s
                                            | None => PJson (JList [])
                                            end) ]) ])
    /\ Formatter._format_llama_request [] temperature max_tokens kw
       = Ok (PDict [ ("prompt",
                      PJson (JStr ("<|start_header_id|>assistant<|end_header_id|>"
                                     ++ Formatter.nl)));
                     ("max_gen_len", PJson (JInt max_tokens));
                     ("temperature", PFloat temperature);
                     ("top_p", match Py.lookup kw "top_p" with
                               | Some p => p
                               | None => PFloat 0.9%float
                               end) ]).
Proof. intros. repeat split. Qed.

(** ** The response parsers *)

Section Parsers.

Import Response.

Lemma integer_or_absent_as_int (d : list (string * json)) (k : string) :
  Shape.integer_or_absent d k = true ->
  exists n, Py.as_int (Py.dict_get d k (JInt 0)) = Some n.
Proof.
  unfold Shape.integer_or_absent, Py.dict_get.
  destruct (Py.lookup d k) as [j|]; [|simpl; eauto].
  destruct (Py.as_int j); [eauto | discriminate].
Qed.

Lemma add_as_int (a b : json) (x y : Z) :
  Py.as_int a = Some x -> Py.as_int b = Some y -> Py.add a b = Ok (JInt (x + y)).
Proof. intros Ha Hb. unfold Py.add. rewrite Ha, Hb. reflexivity. Qed.

Lemma anthropic_usage_object (d : list (string * json)) :
  Shape.anthropic_body d = true ->
  exists u p c,
    Py.dict_get d "usage" (JDict []) = JDict u
    /\ Py.as_int (Py.dict_get u "input_tokens" (JInt 0)) = Some p
    /\ Py.as_int (Py.dict_get u "output_tokens" (JInt 0)) = Some c.
Proof.
  unfold Shape.anthropic_body. intros H.
  apply andb_prop in H as [_ H].
  unfold Py.dict_get at 1.
  destruct (Py.lookup d "usage") as [[| | | | |u]|]; try discriminate.
  - apply andb_prop in H as [Hi Ho].
    apply integer_or_absent_as_int in Hi as [p Hp].
    apply integer_or_absent_as_int in Ho as [c Hc].
    exists u, p, c. auto.
  - exists [], 0, 0. auto.
Qed.

Lemma anthropic_text_step (d : list (string * json)) :
  Shape.anthropic_body d = true ->
  (if Py.truthy (Py.dict_get d "content" (JList []))
      && Py.is_list (Py.dict_get d "content" (JList []))
   then (first <- Py.index0 (Py.dict_get d "content" (JList [])) ;;
         Py.get first "text" (JStr ""))
   else Ok (JStr (Py.str (Py.dict_get d "content" (JList [])))))
  = Ok (Shape.anthropic_text d).
Proof.
  unfold Shape.anthropic_body, Shape.anthropic_text. intros H.
  apply andb_prop in H as [H _].
  destruct (Py.dict_get d "content" (JList [])) as [|b|n|s|l|o]; try reflexivity.
  - destruct b; reflexivity.
  - simpl. destruct (n =? 0); reflexivity.
  - simpl. destruct (String.eqb s ""); reflexivity.
  - destruct l as [|x l]; [reflexivity|].
    destruct x; try discriminate. reflexivity.
  - destruct o; reflexivity.
Qed.

(** The response of the Anthropic parser, field by field. *)
Lemma anthropic_parse_shaped (name : string) (d : list (string * json)) :
  Shape.anthropic_body d = true ->
  exists (u : list (string * json)) (p c : Z),
    Py.dict_get d "usage" (JDict []) = JDict u
    /\ Py.as_int (Py.dict_get u "input_tokens" (JInt 0)) = Some p
    /\ Py.as_int (Py.dict_get u "output_tokens" (JInt 0)) = Some c
    /\ _parse_anthropic_response name (JDict d)
       = Ok {| model := name;
               choices :=
                 [ {| message := assistant (Shape.anthropic_text d);
                      finish_reason := Py.dict_get d "stop_reason" (JStr "stop") |} ];
               usage :=
                 {| prompt_tokens := Py.dict_get u "input_tokens" (JInt 0);
                    completion_tokens := Py.dict_get u "output_tokens" (JInt 0);
                    total_tokens := JInt (p + c) |} |}.
Proof.
  intros H.
  destruct (anthropic_usage_object d H) as (u & p & c & Hu & Hp & Hc).
  exists u, p, c. repeat split; try assumption.
  unfold _parse_anthropic_response.
  rewrite !get_object, bind_Ok_l.
  rewrite (anthropic_text_step d H), !bind_Ok_l.
  rewrite Hu, !get_object, !bind_Ok_l.
  rewrite (add_as_int _ _ p c Hp Hc). reflexivity.
Qed.

(** The Titan parser reads a missing or empty result list as the empty
    text. *)
Lemma titan_empty_results_text_is_empty (name : string) (d : list (string * json)) :
  Py.lookup d "results" = None \/ Py.lookup d "results" = Some (JList []) ->
  _parse_titan_response name (JDict d)
  = Ok {| model := name;
          choices := [ {| message := assistant (JStr "");
                          finish_reason := JStr "stop" |} ];
          usage := Shape.zero_usage |}.
Proof.
  intros H. unfold _parse_titan_response. rewrite get_object, bind_Ok_l.
  unfold Py.dict_get. destruct H as [-> | ->]; reflexivity.
Qed.

(** C7: what the Anthropic parser returns for a body (a content list, if
    not empty, starts with an object; usage, if present, holds integer
    counts).  The finish reason is [stop_reason], default "stop", and the
    usage is read from [usage.input_tokens] and [usage.output_tokens], a
    missing field read as 0.  The text is the [text] field (default the
    empty string) of the first element when [content] is a non-empty
    list, and the printed form of the content when it is not a list.
    When [content] is the empty list or is absent, no first element is
    read and the text is not empty: it is "[]", the printed form of the
    empty list. *)
Theorem anthropic_response_of_body :
  forall (name : string) (d : list (string * json)),
    Shape.anthropic_body d = true ->
    (exists (u : list (string * json)) (p c : Z),
        Py.dict_get d "usage" (JDict []) = JDict u
        /\ Py.as_int (Py.dict_get u "input_tokens" (JInt 0)) = Some p
        /\ Py.as_int (Py.dict_get u "output_tokens" (JInt 0)) = Some c
        /\ _parse_anthropic_response name (JDict d)
           = Ok {| model := name;
                   choices :=
                     [ {| message := assistant (Shape.anthropic_text d);
                          finish_reason := Py.dict_get d "stop_reason" (JStr "stop") |} ];
                   usage :=
                     {| prompt_tokens := Py.dict_get u "input_tokens" (JInt 0);
                        completion_tokens := Py.dict_get u "output_tokens" (JInt 0);
                        total_tokens := JInt (p + c) |} |})
    /\ (forall (first : list (string * json)) (rest : list json),
           Py.lookup d "content" = Some (JList (JDict first :: rest)) ->
           Shape.anthropic_text d = Py.dict_get first "text" (JStr ""))
    /\ (forall content : json,
           Py.lookup d "content" = Some content ->
           Py.is_list content = false ->
           Shape.anthropic_text d = JStr (Py.str content))
    /\ (Py.lookup d "content" = None \/ Py.lookup d "content" = Some (JList []) ->
        Shape.anthropic_text d = JStr "[]").
Proof.
  intros name d H. split; [apply anthropic_parse_shaped; exact H|].
  unfold Shape.anthropic_text, Py.dict_get. repeat split.
  - intros first rest ->. reflexivity.
  - intros content -> L. destruct content; try reflexivity. discriminate.
  - intros [-> | ->]; reflexivity.
Qed.

(** The body whose content list is empty: the text is "[]". *)
Lemma anthropic_response_of_body_witness :
  Shape.anthropic_text [("content", JList [])] = JStr "[]".
Proof.
  apply (proj2 (proj2 (proj2 (anthropic_response_of_body
                                "anthropic.claude-3-haiku" [("content", JList [])]
                                eq_refl)))).
  right. reflexivity.
Defined.

Example anthropic_hi_parsed :
  _parse_anthropic_response "anthropic.claude-3-haiku" (JDict anthropic_hi)
  = Ok {| model := "anthropic.claude-3-haiku";
          choices := [ {| message := assistant (JStr "hi");
                          finish_reason := JStr "end_turn" |} ];
          usage := {| prompt_tokens := JInt 3;
                      completion_tokens := JInt 2;
                      total_tokens := JInt 5 |} |}.
Proof. reflexivity. Qed.

(** The responses for an empty content list and for a body without
    content: the list has no first element, and the text reported is its
    printed form. *)
Example anthropic_empty_content_is_stringified :
  __init__ (JDict [("content", JList [])]) "anthropic.claude-3-haiku"
  = Ok {| model := "anthropic.claude-3-haiku";
          choices := [ {| message := assistant (JStr "[]");
                          finish_reason := JStr "stop" |} ];
          usage := Shape.zero_usage |}
  /\ __init__ (JDict []) "anthropic.claude-3-haiku"
     = Ok {| model := "anthropic.claude-3-haiku";
             choices := [ {| message := assistant (JStr "[]");
                             finish_reason := JStr "stop" |} ];
             usage := Shape.zero_usage |}
  /\ Py.index0 (JList []) = Raise (Exn IndexError "list index out of range").
Proof. repeat split; reflexivity. Qed.

Ltac bind_inv H :=
  repeat (apply bind_Ok in H;
          let v := fresh "v" in
          let Hv := fresh "Hv" in
          destruct H as (v & Hv & H); cbv beta in H).

Lemma anthropic_usage_sum (name : string) (data : json) (r : BedrockResponse) :
  _parse_anthropic_response name data = Ok r ->
  Py.add (prompt_tokens (usage r)) (completion_tokens (usage r))
  = Ok (total_tokens (usage r)).
Proof.
  unfold _parse_anthropic_response. intros H. bind_inv H.
  injection H as <-. simpl. congruence.
Qed.

Lemma llama_usage_sum (name : string) (data : json) (r : BedrockResponse) :
  _parse_llama_response name data = Ok r ->
  Py.add (prompt_tokens (usage r)) (completion_tokens (usage r))
  = Ok (total_tokens (usage r)).
Proof.
  unfold _parse_llama_response. intros H. bind_inv H.
  injection H as <-. simpl. congruence.
Qed.

Lemma titan_usage_zero (name : string) (data : json) (r : BedrockResponse) :
  _parse_titan_response name data = Ok r -> usage r = Shape.zero_usage.
Proof.
  unfold _parse_titan_response. intros H. bind_inv H.
  injection H as <-. reflexivity.
Qed.

Lemma titan_total (name : string) (d : list (string * json)) :
  Shape.titan_body d = true ->
  exists r, _parse_titan_response name (JDict d) = Ok r.
Proof.
  unfold Shape.titan_body, _parse_titan_response. intros H.
  rewrite get_object, bind_Ok_l.
  destruct (Py.dict_get d "results" (JList [])) as [|b|n|s|l|o]; simpl in H |- *.
  - eauto.
  - destruct b; [discriminate | simpl; eauto].
  - destruct (n =? 0); [simpl; eauto | discriminate].
  - destruct (String.eqb s ""); [simpl; eauto | discriminate].
  - destruct l as [|x l]; [simpl; eauto|].
    destruct x; try discriminate. simpl. eauto.
  - destruct o; [simpl; eauto | discriminate].
Qed.

Lemma llama_total (name : string) (d : list (string * json)) :
  Shape.llama_body d = true ->
  exists r, _parse_llama_response name (JDict d) = Ok r.
Proof.
  unfold Shape.llama_body, _parse_llama_response. intros H.
  apply andb_prop in H as [Hp Hg].
  apply integer_or_absent_as_int in Hp as [p Hp].
  apply integer_or_absent_as_int in Hg as [g Hg].
  rewrite !get_object, !bind_Ok_l.
  rewrite (add_as_int _ _ p g Hp Hg). simpl. eauto.
Qed.

(** C8: every response the parsers produce has
    total = prompt + completion (Python's [+], the sum of the integers
    when both are integers); a Titan response has usage 0, 0, 0 whatever
    the body holds; and a response is produced, not an error, for every
    body of the shape of its family (for Titan: [results] absent, empty
    or a list that starts with an object). *)
Theorem usage_total_is_sum :
  forall (name : string),
    (forall (data : json) (r : BedrockResponse),
        __init__ data name = Ok r ->
        Py.add (prompt_tokens (usage r)) (completion_tokens (usage r))
        = Ok (total_tokens (usage r))
        /\ (forall p c : Z,
               Py.as_int (prompt_tokens (usage r)) = Some p ->
               Py.as_int (completion_tokens (usage r)) = Some c ->
               total_tokens (usage r) = JInt (p + c))
        /\ (family_of name = Some Titan -> usage r = Shape.zero_usage))
    /\ (forall d : list (string * json),
           native_body (family_of name) d = true ->
           exists r, __init__ (JDict d) name = Ok r).
Proof.
  intros name. split.
  - intros data r H.
    assert (S : Py.add (prompt_tokens (usage r)) (completion_tokens (usage r))
                = Ok (total_tokens (usage r))).
    { rewrite init_by_family in H.
      destruct (family_of name) as [[| |]|]; [| | |discriminate].
      - eapply anthropic_usage_sum; eassumption.
      - apply titan_usage_zero in H. rewrite H. reflexivity.
      - eapply llama_usage_sum; eassumption. }
    split; [exact S|]. split.
    + intros p c Hp Hc. rewrite (add_as_int _ _ p c Hp Hc) in S. congruence.
    + intros T. rewrite init_by_family, T in H.
      eapply titan_usage_zero; eassumption.
  - intros d H. rewrite init_by_family.
    destruct (family_of name) as [[| |]|]; simpl in H; [| | |discriminate].
    + destruct (anthropic_parse_shaped name d H) as (u & p & c & _ & _ & _ & E).
      eauto.
    + apply titan_total; assumption.
    + apply llama_total; assumption.
Qed.

(** A Titan body with a token count in it: a response, with usage 0, 0, 0. *)
Lemma usage_total_is_sum_witness :
  native_body (family_of "amazon.titan-text-express-v1") titan_ok = true
  /\ exists r,
      __init__ (JDict titan_ok) "amazon.titan-text-express-v1" = Ok r
      /\ usage r = Shape.zero_usage
      /\ Py.add (prompt_tokens (usage r)) (completion_tokens (usage r))
         = Ok (total_tokens (usage r)).
Proof.
  destruct (usage_total_is_sum "amazon.titan-text-express-v1") as [A B].
  split; [reflexivity|].
  destruct (B titan_ok eq_refl) as [r Hr].
  exists r. split; [exact Hr|].
  destruct (A _ _ Hr) as (S & _ & T).
  split; [apply T; reflexivity | exact S].
Defined.

End Parsers.


(** ** The streaming generator *)

Section Generator.

Import Streaming Chunks.

Lemma family_of_Anthropic (m : string) :
  family_of m = Some Anthropic -> PyStr.contains "anthropic" (PyStr.lower m) = true.
Proof.
  unfold family_of.
  destruct (PyStr.contains "anthropic" _); [reflexivity|].
  destruct (PyStr.contains "amazon.titan" _); [discriminate|].
  destruct (PyStr.contains "meta.llama" _); discriminate.
Qed.

Lemma eq_str_true (j : json) (s : string) : Py.eq_str j s = true -> j = JStr s.
Proof.
  destruct j; simpl; try discriminate.
  intros H. apply String.eqb_eq in H. congruence.
Qed.

(** The family parsers catch what they raise. *)
Lemma parse_by_model_type_total (model_id : string) (chunk_data : json) :
  parse_by_model_type model_id chunk_data = Ok (delta_text model_id chunk_data).
Proof.
  unfold delta_text.
  assert (T : exists t, parse_by_model_type model_id chunk_data = Ok t).
  { unfold parse_by_model_type.
    destruct (PyStr.contains "anthropic" _); [apply try_except_total|].
    destruct (PyStr.contains "amazon.titan" _); [apply try_except_total|].
    destruct (PyStr.contains "meta.llama" _); [apply try_except_total|].
    eauto. }
  destruct T as [t ->]. reflexivity.
Qed.

Lemma on_event_decoded (model_id : string) (data : json) :
  on_event model_id (Chunk (Ok data))
  = Ok (if Py.truthy (delta_text model_id data)
        then [streaming_chunk (delta_text model_id data) None]
        else []).
Proof.
  unfold on_event. rewrite bind_Ok_l, parse_by_model_type_total, bind_Ok_l.
  destruct (Py.truthy _); reflexivity.
Qed.

Lemma on_event_decodes (model_id : string) (ev : event) :
  decodes ev = true -> on_event model_id ev = Ok (yielded model_id ev).
Proof.
  destruct ev as [|[data|e]]; [reflexivity| |discriminate].
  intros _. unfold yielded. rewrite on_event_decoded. reflexivity.
Qed.

Lemma on_event_raises (model_id : string) (e : exn) :
  on_event model_id (Chunk (Raise e)) = Raise e.
Proof. reflexivity. Qed.

Lemma control_event_no_text (model_id : string) (d : list (string * json)) :
  family_of model_id = Some Anthropic ->
  control_event d = true ->
  delta_text model_id (JDict d) = JStr "".
Proof.
  intros F C. apply family_of_Anthropic in F.
  unfold delta_text, parse_by_model_type. rewrite F.
  unfold _parse_anthropic_streaming_chunk, Py.get_none.
  rewrite !get_object. unfold control_event in C.
  apply orb_prop in C as [C|C]; apply eq_str_true in C; rewrite C; reflexivity.
Qed.

Lemma content_block_delta_text (model_id : string) (d e : list (string * json)) :
  family_of model_id = Some Anthropic ->
  Py.lookup d "type" = Some (JStr "content_block_delta") ->
  Py.lookup d "delta" = Some (JDict e) ->
  delta_text model_id (JDict d) = Py.dict_get e "text" (JStr "").
Proof.
  intros F T D. apply family_of_Anthropic in F.
  unfold delta_text, parse_by_model_type. rewrite F.
  unfold _parse_anthropic_streaming_chunk, Py.get_none, Py.get, Py.dict_get.
  rewrite T, D. reflexivity.
Qed.

(** C2, as amended: an event yields at most one chunk, never a terminal
    one and never one with an empty delta.  An event whose payload decodes
    yields one chunk exactly when the text its family parser recognises in
    it is non-empty, and the chunk carries that text; an event without
    payload yields none; for an Anthropic deployment a block-start marker
    or a metadata delta yields none, and a [content_block_delta] carries
    [delta.text]. *)
Theorem event_yields_chunk_only_for_text :
  forall (model_id : string),
    (forall (ev : event) (out : list StreamingChunk),
        on_event model_id ev = Ok out ->
        out = []
        \/ exists text, Py.truthy text = true /\ out = [streaming_chunk text None])
    /\ on_event model_id NoChunk = Ok []
    /\ (forall data : json,
           on_event model_id (Chunk (Ok data))
           = Ok (if Py.truthy (delta_text model_id data)
                 then [streaming_chunk (delta_text model_id data) None]
                 else []))
    /\ (forall d : list (string * json),
           family_of model_id = Some Anthropic ->
           control_event d = true ->
           on_event model_id (Chunk (Ok (JDict d))) = Ok [])
    /\ (forall d e : list (string * json),
           family_of model_id = Some Anthropic ->
           Py.lookup d "type" = Some (JStr "content_block_delta") ->
           Py.lookup d "delta" = Some (JDict e) ->
           delta_text model_id (JDict d) = Py.dict_get e "text" (JStr "")).
Proof.
  intros model_id. repeat split.
  - intros [|[data|e]] out H.
    + injection H as <-. auto.
    + rewrite on_event_decoded in H. injection H as <-.
      destruct (Py.truthy (delta_text model_id data)) eqn:T; eauto.
    + discriminate.
  - apply on_event_decoded.
  - intros d F C. rewrite on_event_decoded, (control_event_no_text _ _ F C). reflexivity.
  - apply content_block_delta_text.
Qed.

(** A block-start marker of an Anthropic stream yields no chunk. *)
Lemma event_yields_chunk_only_for_text_witness :
  on_event "anthropic.claude-3-haiku" block_start = Ok [].
Proof.
  destruct (event_yields_chunk_only_for_text "anthropic.claude-3-haiku")
    as (_ & _ & _ & C & _).
  apply C; reflexivity.
Defined.

(** C2, as stated, fails: a stream of one block-start marker and one text
    delta yields the chunk of the text and the final chunk; no
    empty-delta chunk stands for the marker. *)
Lemma control_event_is_dropped :
  _handle_streaming_response
    {| events := [block_start; text_delta "Hel"]; ending := None |}
    "anthropic.claude-3-haiku"
  = [streaming_chunk (JStr "Hel") None; final_chunk]
  /\ on_event "anthropic.claude-3-haiku" block_start = Ok [].
Proof. split; reflexivity. Qed.

Lemma yielded_non_terminal (model_id : string) (ev : event) :
  forallb non_terminal (yielded model_id ev) = true.
Proof.
  destruct ev as [|[data|e]]; try reflexivity.
  unfold yielded. rewrite on_event_decoded.
  destruct (Py.truthy _); reflexivity.
Qed.

Lemma per_event_chunks_cons (model_id : string) (ev : event) (evs : list event) :
  per_event_chunks model_id (ev :: evs)
  = (yielded model_id ev ++ per_event_chunks model_id evs)%list.
Proof. reflexivity. Qed.

Lemma per_event_non_terminal (model_id : string) (evs : list event) :
  forallb non_terminal (per_event_chunks model_id evs) = true.
Proof.
  induction evs as [|ev evs IH]; [reflexivity|].
  rewrite per_event_chunks_cons, forallb_app, yielded_non_terminal, IH.
  reflexivity.
Qed.

(** No event raises: every event's chunks, then the end of the iteration. *)
Lemma stream_loop_decoded (model_id : string) (evs : list event) (ending : option exn) :
  forallb decodes evs = true ->
  stream_loop model_id evs ending
  = (per_event_chunks model_id evs
       ++ [match ending with None => final_chunk | Some e => error_chunk e end])%list.
Proof.
  induction evs as [|ev evs IH]; simpl; intros H.
  - destruct ending; reflexivity.
  - apply andb_prop in H as [Hev Hevs].
    rewrite (on_event_decodes _ _ Hev), (IH Hevs), per_event_chunks_cons.
    apply List.app_assoc.
Qed.

(** An event raises: the chunks of the events before it, then the error
    chunk, and nothing of what follows. *)
Lemma stream_loop_failure (model_id : string) (pre post : list event)
      (e : exn) (ending : option exn) :
  forallb decodes pre = true ->
  stream_loop model_id (pre ++ Chunk (Raise e) :: post)%list ending
  = (per_event_chunks model_id pre ++ [error_chunk e])%list.
Proof.
  induction pre as [|ev pre IH]; simpl; intros H.
  - reflexivity.
  - apply andb_prop in H as [Hev Hpre].
    rewrite (on_event_decodes _ _ Hev), (IH Hpre), per_event_chunks_cons.
    apply List.app_assoc.
Qed.

Lemma first_failure (evs : list event) :
  forallb decodes evs = false ->
  exists pre e post,
    evs = (pre ++ Chunk (Raise e) :: post)%list /\ forallb decodes pre = true.
Proof.
  induction evs as [|ev evs IH]; simpl; [discriminate|].
  destruct (decodes ev) eqn:D; simpl.
  - intros H. destruct (IH H) as (pre & e & post & -> & Hpre).
    exists (ev :: pre), e, post. simpl. rewrite D, Hpre. auto.
  - intros _. destruct ev as [|[data|e]]; try discriminate.
    exists [], e, evs. auto.
Qed.



Example broken_stream_chunks :
  _handle_streaming_response
    {| events := [block_start; text_delta "Hel"; Chunk (Raise broken); text_delta "lo"];
       ending := None |}
    "anthropic.claude-3-haiku"
  = [ streaming_chunk (JStr "Hel") None;
      streaming_chunk (JStr "Streaming error: connection reset") (Some "error") ].
Proof. reflexivity. Qed.

End Generator.


(** ** The model resolver *)

Section Resolution.

Import Resolver Resolving.

(** The listing is always attempted once and never raises to its caller. *)
Lemma get_available_total (svc : Service) (st : State) :
  exists profiles,
    get_available_inference_profiles svc st
    = (Ok profiles, logged st ListInferenceProfiles).
Proof.
  unfold get_available_inference_profiles, tryM, bindM, remote, lift, ret, logged.
  destruct (list_inference_profiles svc (calls st)) as [profiles|e]; [|eauto].
  destruct (Py.get profiles _ _) as [summaries|e]; [|eauto].
  destruct (iterate summaries) as [items|e]; [|eauto].
  destruct (index_profiles items ∅) as [m|e]; eauto.
Qed.


Lemma resolve_qualified (svc : Service) (requested : string) (st : State) :
  has_region_prefix (clean requested) = true ->
  get_best_model_id svc requested st = (Ok (clean requested), st).
Proof.
  intros H. unfold get_best_model_id. fold gateway. fold (clean requested).
  rewrite H. reflexivity.
Qed.

Lemma resolve_unqualified (svc : Service) (requested : string) (st : State) :
  has_region_prefix (clean requested) = false ->
  exists profiles,
    get_available_inference_profiles svc st
    = (Ok profiles, logged st ListInferenceProfiles)
    /\ get_best_model_id svc requested st
       = (Ok (match profiles !! clean requested with
              | Some profile_id => profile_id
              | None => clean requested
              end),
          logged st ListInferenceProfiles).
Proof.
  intros H. destruct (get_available_total svc st) as [profiles E].
  exists profiles. split; [exact E|].
  unfold get_best_model_id. fold gateway. fold (clean requested).
  rewrite H. unfold bindM. rewrite E.
  destruct (profiles !! clean requested); reflexivity.
Qed.






(** *** What [replace] does with the gateway marker *)




Lemma prefix_String (x y : ascii) (s t : string) :
  String.prefix (String x s) (String y t) = Ascii.eqb x y && String.prefix s t.
Proof.
  simpl. destruct (ascii_dec x y) as [->|N].
  - rewrite Ascii.eqb_refl. reflexivity.
  - apply Ascii.eqb_neq in N. rewrite N. reflexivity.
Qed.











Example resolve_unqualified_listing_down :
  get_best_model_id (service_with (Raise listing_down))
    "bedrock/anthropic.claude-3-haiku" initial
  = (Ok "anthropic.claude-3-haiku", logged initial ListInferenceProfiles).
Proof. reflexivity. Qed.



End Resolution.


(** ** The gateway *)

Section Completion.

Import Gateway Resolving.

(** A completion through the whole gateway: the listing qualifies the
    id, the transport is invoked once, the body is parsed. *)
Example completion_round_trip :
  completion (service_with (Ok one_profile)) "bedrock/anthropic.claude-3-haiku"
    [user_msg "hello"] false 0%float 4096 [] initial
  = (Ok (Completed
           {| Response.model := "bedrock/anthropic.claude-3-haiku";
              Response.choices :=
                [ {| Response.message := Response.assistant (JStr "hi");
                     Response.finish_reason := JStr "end_turn" |} ];
              Response.usage :=
                {| Response.prompt_tokens := JInt 3;
                   Response.completion_tokens := JInt 2;
                   Response.total_tokens := JInt 5 |} |}),
     {| calls :=
          [ ListInferenceProfiles;
            InvokeModel "us.anthropic.claude-3-haiku"
              (PDict [ ("messages",
                        PList [PDict [("role", PJson (JStr "user"));
                                      ("content", PJson (JStr "hello"))]]);
                       ("max_tokens", PJson (JInt 4096));
                       ("temperature", PFloat 0%float);
                       ("anthropic_version", PJson (JStr "bedrock-2023-05-31")) ]) ];
        _client := true |}).
Proof. reflexivity. Qed.

Lemma completion_unsupported (svc : Service) (requested : string)
      (messages : list Formatter.message) (stream : bool)
      (temperature : float) (max_tokens : Z) (kw : Formatter.kwargs)
      (st st' : State) (model_id : string) :
  family_of model_id = None ->
  Resolver.get_best_model_id svc requested st = (Ok model_id, st') ->
  completion svc requested messages stream temperature max_tokens kw st
  = (Raise (Exn BedrockModelError ("Unsupported model: " ++ model_id)), st').
Proof.
  intros F R. apply family_of_None in F as (A & T & L).
  unfold completion, bindM. rewrite R, A, T, L. reflexivity.
Qed.

Lemma resolve_calls (svc : Service) (requested : string) (st st' : State)
      (model_id : string) :
  Resolver.get_best_model_id svc requested st = (Ok model_id, st') ->
  st' = st \/ st' = logged st ListInferenceProfiles.
Proof.
  intros R.
  destruct (Resolver.has_region_prefix (clean requested)) eqn:Q.
  - rewrite (resolve_qualified _ _ _ Q) in R. left. congruence.
  - destruct (resolve_unqualified svc requested st Q) as (m & _ & E).
    rewrite E in R. right. congruence.
Qed.

(** C6: for a deployment id that matches none of the three family
    substrings the response object raises the model error whatever the
    body is (no field of it is read), and a completion that resolves to
    such an id raises the model error in the state the resolver left: no
    transport invocation was made, only, for an unqualified request, the
    listing call of the resolver. *)
Theorem unrecognised_family_raises_model_error :
  forall (model_id : string),
    family_of model_id = None ->
    (forall data : json,
        Response.__init__ data model_id
        = Raise (Exn BedrockModelError ("Unsupported model type: " ++ model_id)))
    /\ (forall (svc : Service) (requested : string)
               (messages : list Formatter.message) (stream : bool)
               (temperature : float) (max_tokens : Z) (kw : Formatter.kwargs)
               (st st' : State),
           Resolver.get_best_model_id svc requested st = (Ok model_id, st') ->
           completion svc requested messages stream temperature max_tokens kw st
           = (Raise (Exn BedrockModelError ("Unsupported model: " ++ model_id)), st')
           /\ (st' = st \/ st' = logged st ListInferenceProfiles)).
Proof.
  intros model_id F. split.
  - intros data. rewrite init_by_family, F. reflexivity.
  - intros svc requested messages stream temperature max_tokens kw st st' R. split.
    + apply completion_unsupported; assumption.
    + eapply resolve_calls; eassumption.
Qed.

(** An id of a fourth family: the completion stops after the listing. *)
Lemma unrecognised_family_raises_model_error_witness :
  completion (service_with (Ok one_profile)) "bedrock/cohere.command-r-v1"
    [user_msg "hello"] true 0%float 4096 [] initial
  = (Raise (Exn BedrockModelError "Unsupported model: cohere.command-r-v1"),
     logged initial ListInferenceProfiles).
Proof.
  destruct (unrecognised_family_raises_model_error "cohere.command-r-v1" eq_refl)
    as (_ & C).
  apply (C (service_with (Ok one_profile)) "bedrock/cohere.command-r-v1"
           [user_msg "hello"] true 0%float 4096 [] initial
           (logged initial ListInferenceProfiles)).
  reflexivity.
Defined.

(** The streaming path returns the generator; a streaming request falls
    back to the synchronous call when streaming is disabled. *)
Example completion_streaming :
  completion (service_with (Ok one_profile)) "us.anthropic.claude-3-haiku"
    [user_msg "hello"] true 0%float 4096 [] initial
  = (Ok (Generator [Streaming.final_chunk]),
     {| calls :=
          [ InvokeModelWithResponseStream "us.anthropic.claude-3-haiku"
              (PDict [ ("messages",
                        PList [PDict [("role", PJson (JStr "user"));
                                      ("content", PJson (JStr "hello"))]]);
                       ("max_tokens", PJson (JInt 4096));
                       ("temperature", PFloat 0%float);
                       ("anthropic_version", PJson (JStr "bedrock-2023-05-31")) ]) ];
        _client := true |}).
Proof. reflexivity. Qed.

End Completion.


(** * Further properties of the module *)

(** ** Prompts and request bodies *)

Section Prompts.

Import Formatter Prompt.

Lemma append_cons (x : ascii) (a b : string) : String x a ++ b = String x (a ++ b).
Proof. reflexivity. Qed.

Lemma append_assoc (a b c : string) : (a ++ b) ++ c = a ++ b ++ c.
Proof.
  induction a as [|x a IH]; [reflexivity|].
  rewrite !append_cons, IH. reflexivity.
Qed.

Lemma append_nil_r (a : string) : a ++ "" = a.
Proof.
  induction a as [|x a IH]; [reflexivity|].
  rewrite append_cons, IH. reflexivity.
Qed.

Lemma getitem_missing {V} (d : list (string * V)) (k : string) :
  Py.lookup d k = None -> Py.getitem d k = Raise (Exn KeyError (PyStr.repr k)).
Proof. unfold Py.getitem. intros ->. reflexivity. Qed.

Lemma has_key_lookup {V} (d : list (string * V)) (k : string) :
  Py.lookup d k = None -> Py.has_key d k = false.
Proof. unfold Py.has_key. intros ->. reflexivity. Qed.

Lemma readable_role (msg : message) :
  readable msg = true -> Py.getitem msg "role" = Ok (role_of msg).
Proof.
  unfold readable. intros H. apply andb_prop in H as [H _].
  apply (getitem_has_key msg "role" JNull H).
Qed.

Lemma readable_content (msg : message) :
  readable msg = true -> known_role msg = true ->
  Py.getitem msg "content" = Ok (content_of msg).
Proof.
  unfold readable. intros H K. apply andb_prop in H as [_ H].
  rewrite K, orb_false_r in H. apply (getitem_has_key msg "content" JNull H).
Qed.

(** The loops run through a list that is put together from two. *)
Lemma titan_loop_app (a b : list message) (p : string) :
  titan_loop (a ++ b) p = (q <- titan_loop a p ;; titan_loop b q).
Proof.
  revert p. induction a as [|msg a IH]; intros p; [reflexivity|].
  cbn [List.app titan_loop].
  destruct (Py.getitem msg "role") as [r|e]; [|reflexivity]. rewrite !bind_Ok_l.
  destruct (Py.eq_str r "system");
    [destruct (Py.getitem msg "content"); [rewrite !bind_Ok_l; apply IH | reflexivity]|].
  destruct (Py.eq_str r "user");
    [destruct (Py.getitem msg "content"); [rewrite !bind_Ok_l; apply IH | reflexivity]|].
  destruct (Py.eq_str r "assistant");
    [destruct (Py.getitem msg "content"); [rewrite !bind_Ok_l; apply IH | reflexivity]|].
  apply IH.
Qed.

Lemma llama_loop_app (a b : list message) (p : string) :
  llama_loop (a ++ b) p = (q <- llama_loop a p ;; llama_loop b q).
Proof.
  revert p. induction a as [|msg a IH]; intros p; [reflexivity|].
  cbn [List.app llama_loop].
  destruct (Py.getitem msg "role") as [r|e]; [|reflexivity]. rewrite !bind_Ok_l.
  destruct (Py.eq_str r "system");
    [destruct (Py.getitem msg "content"); [rewrite !bind_Ok_l; apply IH | reflexivity]|].
  destruct (Py.eq_str r "user");
    [destruct (Py.getitem msg "content"); [rewrite !bind_Ok_l; apply IH | reflexivity]|].
  destruct (Py.eq_str r "assistant");
    [destruct (Py.getitem msg "content"); [rewrite !bind_Ok_l; apply IH | reflexivity]|].
  apply IH.
Qed.

Lemma anthropic_loop_app (a b : list message) (sys : json) (acc : list pyobj) :
  anthropic_loop (a ++ b) sys acc
  = (st <- anthropic_loop a sys acc ;; anthropic_loop b (fst st) (snd st)).
Proof.
  revert sys acc. induction a as [|msg a IH]; intros sys acc; [reflexivity|].
  cbn [List.app anthropic_loop].
  destruct (Py.getitem msg "role") as [r|e]; [|reflexivity]. rewrite !bind_Ok_l.
  destruct (Py.eq_str r "system").
  - destruct (Py.getitem msg "content"); [rewrite !bind_Ok_l; apply IH | reflexivity].
  - destruct (Py.getitem msg "content"); [rewrite !bind_Ok_l; apply IH | reflexivity].
Qed.

Ltac known_block msg IH :=
  rewrite (readable_content msg) by (assumption || (unfold known_role;
    repeat match goal with H : Py.eq_str _ _ = _ |- _ => rewrite H end; reflexivity));
  rewrite bind_Ok_l, IH by assumption;
  rewrite !append_assoc; reflexivity.

Lemma titan_loop_blocks (messages : list message) (p : string) :
  forallb readable messages = true ->
  titan_loop messages p = Ok (p ++ blocks titan_block messages).
Proof.
  revert p. induction messages as [|msg rest IH]; intros p H.
  - simpl. rewrite append_nil_r. reflexivity.
  - cbn [forallb] in H. apply andb_prop in H as [R H].
    cbn [titan_loop blocks List.fold_right]. fold (blocks titan_block rest).
    rewrite (readable_role msg R), bind_Ok_l. unfold titan_block.
    destruct (Py.eq_str (role_of msg) "system") eqn:S; [known_block msg IH|].
    destruct (Py.eq_str (role_of msg) "user") eqn:U; [known_block msg IH|].
    destruct (Py.eq_str (role_of msg) "assistant") eqn:A; [known_block msg IH|].
    rewrite IH by assumption. reflexivity.
Qed.

Lemma llama_loop_blocks (messages : list message) (p : string) :
  forallb readable messages = true ->
  llama_loop messages p = Ok (p ++ blocks llama_block messages).
Proof.
  revert p. induction messages as [|msg rest IH]; intros p H.
  - simpl. rewrite append_nil_r. reflexivity.
  - cbn [forallb] in H. apply andb_prop in H as [R H].
    cbn [llama_loop blocks List.fold_right]. fold (blocks llama_block rest).
    rewrite (readable_role msg R), bind_Ok_l. unfold llama_block.
    destruct (Py.eq_str (role_of msg) "system") eqn:S; [known_block msg IH|].
    destruct (Py.eq_str (role_of msg) "user") eqn:U; [known_block msg IH|].
    destruct (Py.eq_str (role_of msg) "assistant") eqn:A; [known_block msg IH|].
    rewrite IH by assumption. reflexivity.
Qed.

Lemma well_formed_readable (msg : message) :
  well_formed msg = true -> readable msg = true.
Proof.
  unfold well_formed, readable. intros H. apply andb_prop in H as [-> ->]. reflexivity.
Qed.

Lemma forallb_well_formed_readable (messages : list message) :
  forallb well_formed messages = true -> forallb readable messages = true.
Proof.
  induction messages as [|msg rest IH]; [reflexivity|].
  cbn [forallb]. intros H. apply andb_prop in H as [W R].
  rewrite (well_formed_readable _ W), (IH R). reflexivity.
Qed.

(** A message of another role goes through the Titan and Llama loops
    without a trace. *)
Lemma titan_loop_unknown (msg : message) (rest : list message) (p : string) :
  Py.has_key msg "role" = true -> known_role msg = false ->
  titan_loop (msg :: rest) p = titan_loop rest p.
Proof.
  intros R K. cbn [titan_loop].
  rewrite (getitem_has_key msg "role" JNull R), bind_Ok_l.
  unfold known_role, role_of in K.
  apply orb_false_elim in K as [K A]. apply orb_false_elim in K as [S U].
  rewrite S, U, A. reflexivity.
Qed.

Lemma llama_loop_unknown (msg : message) (rest : list message) (p : string) :
  Py.has_key msg "role" = true -> known_role msg = false ->
  llama_loop (msg :: rest) p = llama_loop rest p.
Proof.
  intros R K. cbn [llama_loop].
  rewrite (getitem_has_key msg "role" JNull R), bind_Ok_l.
  unfold known_role, role_of in K.
  apply orb_false_elim in K as [K A]. apply orb_false_elim in K as [S U].
  rewrite S, U, A. reflexivity.
Qed.

Lemma anthropic_loop_forwards
      (messages : list message) (sys : json) (acc : list pyobj) :
  forallb well_formed messages = true ->
  anthropic_loop messages sys acc
  = Ok (last_system messages sys, (acc ++ forwarded_messages messages)%list).
Proof.
  revert sys acc.
  induction messages as [|msg rest IH]; intros sys acc H.
  - cbn. rewrite List.app_nil_r. reflexivity.
  - cbn [forallb] in H. apply andb_prop in H as [W R].
    unfold well_formed in W. apply andb_prop in W as [Wr Wc].
    cbn [anthropic_loop last_system].
    rewrite (getitem_has_key msg "role" JNull Wr), bind_Ok_l.
    unfold forwarded_messages. cbn [List.filter]. unfold is_system, role_of.
    destruct (Py.eq_str (Py.dict_get msg "role" JNull) "system").
    + rewrite (getitem_has_key msg "content" JNull Wc), bind_Ok_l.
      apply IH, R.
    + rewrite bind_Ok_l, (getitem_has_key msg "content" JNull Wc), bind_Ok_l.
      rewrite (IH _ _ R). cbn [negb List.map].
      rewrite <- List.app_assoc. reflexivity.
Qed.

(** X1: for messages that all have a role and a content, the Anthropic
    request forwards exactly the messages that are not system messages,
    in their order and with their role and content whatever the role is,
    and carries as [system] the content of the last system message when
    that content is not empty, and no [system] field otherwise. *)
Theorem anthropic_body_of_messages :
  forall (messages : list message) (temperature : float) (max_tokens : Z) (kw : kwargs),
    forallb well_formed messages = true ->
    _format_anthropic_request messages temperature max_tokens kw
    = Ok (PDict
            ([ ("messages", PList (forwarded_messages messages));
               ("max_tokens", PJson (JInt max_tokens));
               ("temperature", PFloat temperature);
               ("anthropic_version", PJson (JStr "bedrock-2023-05-31")) ]
             ++ (if Py.truthy (last_system messages (JStr ""))
                 then [("system", PJson (last_system messages (JStr "")))]
                 else []))%list).
Proof.
  intros messages temperature max_tokens kw H.
  unfold _format_anthropic_request.
  rewrite (anthropic_loop_forwards _ _ _ H), bind_Ok_l. cbn [List.app].
  destruct (Py.truthy (last_system messages (JStr ""))); reflexivity.
Qed.

Lemma anthropic_body_of_messages_witness :
  _format_anthropic_request [system_msg "A"; tool_msg; user_msg "hi"] 0%float 4096 []
  = Ok (PDict
          ([ ("messages",
              PList (forwarded_messages [system_msg "A"; tool_msg; user_msg "hi"]));
             ("max_tokens", PJson (JInt 4096));
             ("temperature", PFloat 0%float);
             ("anthropic_version", PJson (JStr "bedrock-2023-05-31")) ]
           ++ (if Py.truthy (last_system [system_msg "A"; tool_msg; user_msg "hi"] (JStr ""))
               then [("system",
                      PJson (last_system [system_msg "A"; tool_msg; user_msg "hi"]
                                         (JStr "")))]
               else []))%list).
Proof.
  apply (anthropic_body_of_messages [system_msg "A"; tool_msg; user_msg "hi"]).
  reflexivity.
Defined.

(** X2: for messages that have a role, and a content when the role is
    system, user or assistant, the Titan prompt is the labelled block of
    each message in the order of the list, followed by the cue
    "Assistant: "; the generation settings are passed on, [topP] and the
    stop sequences from the keyword arguments or their defaults. *)
Theorem titan_prompt_in_order :
  forall (messages : list message) (temperature : float) (max_tokens : Z) (kw : kwargs),
    forallb readable messages = true ->
    _format_titan_request messages temperature max_tokens kw
    = Ok (PDict
            [ ("inputText", PJson (JStr (blocks titan_block messages ++ "Assistant: ")));
              ("textGenerationConfig",
               PDict [ ("maxTokenCount", PJson (JInt max_tokens));
                       ("temperature", PFloat temperature);
                       ("topP", Py.dict_get kw "top_p" (PFloat default_top_p));
                       ("stopSequences", Py.dict_get kw "stop" (PJson (JList []))) ]) ]).
Proof.
  intros messages temperature max_tokens kw H.
  unfold _format_titan_request.
  rewrite (titan_loop_blocks _ _ H), bind_Ok_l. reflexivity.
Qed.

Lemma titan_prompt_in_order_witness :
  _format_titan_request [system_msg "A"; tool_msg; user_msg "hi"] 0%float 4096 []
  = Ok (PDict
          [ ("inputText",
             PJson (JStr (blocks titan_block [system_msg "A"; tool_msg; user_msg "hi"]
                            ++ "Assistant: ")));
            ("textGenerationConfig",
             PDict [ ("maxTokenCount", PJson (JInt 4096));
                     ("temperature", PFloat 0%float);
                     ("topP", Py.dict_get [] "top_p" (PFloat default_top_p));
                     ("stopSequences", Py.dict_get [] "stop" (PJson (JList []))) ]) ]).
Proof.
  apply (titan_prompt_in_order [system_msg "A"; tool_msg; user_msg "hi"]).
  reflexivity.
Defined.

(** X3: under the same condition the Llama prompt is the marked-up block
    of each message in the order of the list, followed by the open
    assistant header. *)
Theorem llama_prompt_in_order :
  forall (messages : list message) (temperature : float) (max_tokens : Z) (kw : kwargs),
    forallb readable messages = true ->
    _format_llama_request messages temperature max_tokens kw
    = Ok (PDict
            [ ("prompt",
               PJson (JStr (blocks llama_block messages
                              ++ "<|start_header_id|>assistant<|end_header_id|>" ++ nl)));
              ("max_gen_len", PJson (JInt max_tokens));
              ("temperature", PFloat temperature);
              ("top_p", Py.dict_get kw "top_p" (PFloat default_top_p)) ]).
Proof.
  intros messages temperature max_tokens kw H.
  unfold _format_llama_request.
  rewrite (llama_loop_blocks _ _ H), bind_Ok_l. reflexivity.
Qed.

Lemma llama_prompt_in_order_witness :
  _format_llama_request [system_msg "A"; tool_msg; user_msg "hi"] 0%float 4096 []
  = Ok (PDict
          [ ("prompt",
             PJson (JStr (blocks llama_block [system_msg "A"; tool_msg; user_msg "hi"]
                            ++ "<|start_header_id|>assistant<|end_header_id|>" ++ nl)));
            ("max_gen_len", PJson (JInt 4096));
            ("temperature", PFloat 0%float);
            ("top_p", Py.dict_get [] "top_p" (PFloat default_top_p)) ]).
Proof.
  apply (llama_prompt_in_order [system_msg "A"; tool_msg; user_msg "hi"]).
  reflexivity.
Defined.

(** X4: a message whose role is none of system, user and assistant is
    left out of the Titan and of the Llama request, with or without a
    content and wherever it stands: the request is the one of the list
    without it. *)
Theorem unknown_role_is_left_out :
  forall (pre : list message) (msg : message) (post : list message)
         (temperature : float) (max_tokens : Z) (kw : kwargs),
    Py.has_key msg "role" = true ->
    known_role msg = false ->
    _format_titan_request (pre ++ msg :: post) temperature max_tokens kw
    = _format_titan_request (pre ++ post) temperature max_tokens kw
    /\ _format_llama_request (pre ++ msg :: post) temperature max_tokens kw
       = _format_llama_request (pre ++ post) temperature max_tokens kw.
Proof.
  intros pre msg post temperature max_tokens kw R K. split.
  - unfold _format_titan_request. rewrite !titan_loop_app.
    destruct (titan_loop pre "") as [q|e]; [|reflexivity].
    rewrite !bind_Ok_l, (titan_loop_unknown _ _ _ R K). reflexivity.
  - unfold _format_llama_request. rewrite !llama_loop_app.
    destruct (llama_loop pre "") as [q|e]; [|reflexivity].
    rewrite !bind_Ok_l, (llama_loop_unknown _ _ _ R K). reflexivity.
Qed.

Lemma unknown_role_is_left_out_witness :
  _format_titan_request ([system_msg "A"] ++ tool_msg :: [user_msg "hi"]) 0%float 4096 []
  = _format_titan_request ([system_msg "A"] ++ [user_msg "hi"]) 0%float 4096 []
  /\ _format_llama_request ([system_msg "A"] ++ tool_msg :: [user_msg "hi"]) 0%float 4096 []
     = _format_llama_request ([system_msg "A"] ++ [user_msg "hi"]) 0%float 4096 [].
Proof.
  apply (unknown_role_is_left_out [system_msg "A"] tool_msg [user_msg "hi"]);
    reflexivity.
Defined.

(** X5: a message without the key 'role' makes each of the three
    formatters raise [KeyError('role')] when the messages before it are
    well formed, whatever follows it; and a message with a role and
    without the key 'content' makes the Anthropic formatter raise
    [KeyError('content')]. *)
Theorem message_without_key_raises :
  forall (pre : list message) (msg : message) (post : list message)
         (temperature : float) (max_tokens : Z) (kw : kwargs),
    forallb well_formed pre = true ->
    (Py.lookup msg "role" = None ->
     _format_anthropic_request (pre ++ msg :: post) temperature max_tokens kw
     = Raise (Exn KeyError "'role'")
     /\ _format_titan_request (pre ++ msg :: post) temperature max_tokens kw
        = Raise (Exn KeyError "'role'")
     /\ _format_llama_request (pre ++ msg :: post) temperature max_tokens kw
        = Raise (Exn KeyError "'role'"))
    /\ (Py.has_key msg "role" = true ->
        Py.lookup msg "content" = None ->
        _format_anthropic_request (pre ++ msg :: post) temperature max_tokens kw
        = Raise (Exn KeyError "'content'")).
Proof.
  intros pre msg post temperature max_tokens kw W.
  pose proof (forallb_well_formed_readable _ W) as R.
  split.
  - intros N. repeat split.
    + unfold _format_anthropic_request.
      rewrite anthropic_loop_app, (anthropic_loop_forwards _ _ _ W), bind_Ok_l.
      cbn [anthropic_loop fst snd]. rewrite (getitem_missing _ _ N). reflexivity.
    + unfold _format_titan_request.
      rewrite titan_loop_app, (titan_loop_blocks _ _ R), bind_Ok_l.
      cbn [titan_loop]. rewrite (getitem_missing _ _ N). reflexivity.
    + unfold _format_llama_request.
      rewrite llama_loop_app, (llama_loop_blocks _ _ R), bind_Ok_l.
      cbn [llama_loop]. rewrite (getitem_missing _ _ N). reflexivity.
  - intros Hr N. unfold _format_anthropic_request.
    rewrite anthropic_loop_app, (anthropic_loop_forwards _ _ _ W), bind_Ok_l.
    cbn [anthropic_loop fst snd].
    rewrite (getitem_has_key msg "role" JNull Hr), bind_Ok_l, (getitem_missing _ _ N).
    destruct (Py.eq_str _ _); reflexivity.
Qed.

Lemma message_without_key_raises_witness :
  _format_titan_request ([user_msg "hi"] ++ no_role_msg :: []) 0%float 4096 []
  = Raise (Exn KeyError "'role'").
Proof.
  destruct (message_without_key_raises [user_msg "hi"] no_role_msg [] 0%float 4096 []
              eq_refl) as [N _].
  apply N. reflexivity.
Defined.

End Prompts.


(** ** The index of the listed deployments *)

Section Index.

Import Resolver Resolving Listing.

Lemma prefix_nil (s : string) : String.prefix "" s = true.
Proof. destruct s; reflexivity. Qed.

(** A text that begins with [a ++ b] is not empty when [a] is not, and
    contains [b]. *)
Lemma prefix_app_contains (a b s : string) :
  String.prefix (a ++ b) s = true -> PyStr.contains b s = true.
Proof.
  revert s. induction a as [|x a IH]; intros s H.
  - destruct s; cbn [PyStr.contains]; cbn [String.append] in H;
      change ("" ++ b) with b in H; rewrite H; reflexivity.
  - destruct s as [|y s]; [discriminate|].
    rewrite append_cons, prefix_String in H. apply andb_prop in H as [_ H].
    cbn [PyStr.contains]. rewrite (IH _ H). apply orb_true_r.
Qed.

Lemma contains_app_r (sub a s : string) :
  PyStr.contains sub s = true -> PyStr.contains sub (a ++ s) = true.
Proof.
  intros H. induction a as [|x a IH]; [exact H|].
  rewrite append_cons. cbn [PyStr.contains]. rewrite IH. apply orb_true_r.
Qed.

Lemma lower_app (a b : string) : PyStr.lower (a ++ b) = PyStr.lower a ++ PyStr.lower b.
Proof.
  induction a as [|x a IH]; [reflexivity|].
  rewrite append_cons. cbn [PyStr.lower]. rewrite IH, append_cons. reflexivity.
Qed.

(** [split('.', 1)] cuts at the first dot. *)
Lemma split1_parts (id a b : string) (rest : list string) :
  PyStr.split1 "." id = a :: b :: rest ->
  id = a ++ "." ++ b /\ PyStr.contains "." a = false.
Proof.
  revert a. induction id as [|c s IH]; intros a H; [discriminate|].
  cbn [PyStr.split1] in H. destruct (Ascii.eqb c ".") eqn:E.
  - apply Ascii.eqb_eq in E. subst c. injection H as <- <- <-. auto.
  - destruct (PyStr.split1 "." s) as [|h t] eqn:S; [discriminate|].
    injection H as <- ->. destruct (IH h eq_refl) as [-> N].
    split; [reflexivity|].
    cbn [PyStr.contains]. rewrite N, orb_false_r.
    destruct h; rewrite prefix_String, Ascii.eqb_sym, E; reflexivity.
Qed.

Lemma base_of_parts (id base : string) :
  base_of id = Some base ->
  exists region, id = region ++ "." ++ base /\ PyStr.contains "." region = false.
Proof.
  unfold base_of. destruct (PyStr.split1 "." id) as [|a [|b rest]] eqn:S; try discriminate.
  intros [= <-]. exists a. eapply split1_parts, S.
Qed.

Lemma base_of_no_dot (id : string) :
  PyStr.contains "." id = false -> base_of id = None.
Proof.
  unfold base_of. destruct (PyStr.split1 "." id) as [|a [|b rest]] eqn:S; try reflexivity.
  intros N. destruct (split1_parts _ _ _ _ S) as [-> _].
  rewrite contains_app_r in N; [discriminate|].
  change ("." ++ b) with (String "." b). cbn [PyStr.contains].
  rewrite prefix_String, prefix_nil. reflexivity.
Qed.

Lemma qualified_entries_empty : qualified_entries ∅.
Proof. intros base id H. rewrite lookup_empty in H. discriminate. Qed.

Lemma qualified_entries_insert (m : gmap string string) (id base : string) :
  qualified_entries m -> base_of id = Some base ->
  qualified_entries (<[base := id]> m).
Proof.
  intros Q B k v H. destruct (decide (base = k)) as [<-|N].
  - rewrite lookup_insert_eq in H. injection H as <-. apply base_of_parts, B.
  - rewrite lookup_insert_ne in H by exact N. apply Q, H.
Qed.

(** Whatever the summaries are, the loop stores only qualified entries. *)
Lemma index_profiles_qualified (summaries : list json) (m m' : gmap string string) :
  qualified_entries m ->
  index_profiles summaries m = Ok m' ->
  qualified_entries m'.
Proof.
  revert m. induction summaries as [|s rest IH]; intros m Q H.
  - injection H as <-. exact Q.
  - cbn [index_profiles] in H.
    destruct (subscript s "inferenceProfileId") as [profile_id|e]; [|discriminate].
    rewrite bind_Ok_l in H.
    destruct (Py.contains_key profile_id ".") as [[|]|e]; [| |discriminate];
      rewrite bind_Ok_l in H; [|eapply IH; eassumption].
    destruct profile_id as [| | |id| |]; try discriminate.
    destruct (PyStr.split1 "." id) as [|a [|b t]] eqn:S;
      try (eapply IH; eassumption).
    eapply IH; [|exact H].
    apply qualified_entries_insert; [exact Q|].
    unfold base_of. rewrite S. reflexivity.
Qed.

Lemma get_available_qualified (svc : Service) (st st' : State) (m : gmap string string) :
  get_available_inference_profiles svc st = (Ok m, st') -> qualified_entries m.
Proof.
  unfold get_available_inference_profiles, tryM, bindM, remote, lift, ret.
  destruct (list_inference_profiles svc (calls st)) as [profiles|e];
    [|intros [= <- _]; apply qualified_entries_empty].
  destruct (Py.get profiles _ _) as [summaries|e];
    [|intros [= <- _]; apply qualified_entries_empty].
  destruct (iterate summaries) as [items|e];
    [|intros [= <- _]; apply qualified_entries_empty].
  destruct (index_profiles items ∅) as [m0|e] eqn:I;
    [|intros [= <- _]; apply qualified_entries_empty].
  intros [= <- _]. eapply index_profiles_qualified; [apply qualified_entries_empty | exact I].
Qed.

Lemma recognised_app (a b : string) :
  family_of b <> None -> family_of (a ++ b) <> None.
Proof.
  unfold family_of. rewrite lower_app.
  destruct (PyStr.contains "anthropic" (PyStr.lower b)) eqn:A.
  { rewrite (contains_app_r _ _ _ A). intros _. discriminate. }
  destruct (PyStr.contains "amazon.titan" (PyStr.lower b)) eqn:T.
  { rewrite (contains_app_r _ _ _ T). intros _.
    destruct (PyStr.contains "anthropic" (PyStr.lower a ++ PyStr.lower b));
      discriminate. }
  destruct (PyStr.contains "meta.llama" (PyStr.lower b)) eqn:L; [|congruence].
  rewrite (contains_app_r _ _ _ L). intros _.
  destruct (PyStr.contains "anthropic" (PyStr.lower a ++ PyStr.lower b));
    [discriminate|].
  destruct (PyStr.contains "amazon.titan" (PyStr.lower a ++ PyStr.lower b));
    discriminate.
Qed.

(** X6: whatever the service lists, the resolver returns, and what it
    returns is the requested id without the gateway marker, either as it
    is or behind a prefix without a dot and a dot (the prefix of the
    listed deployment); an id of a recognised family resolves to an id of
    a recognised family. *)
Theorem resolve_only_adds_a_prefix :
  forall (svc : Service) (requested : string) (st : State),
    exists (id : string) (st' : State),
      get_best_model_id svc requested st = (Ok id, st')
      /\ (id = clean requested
          \/ exists region,
              id = region ++ "." ++ clean requested
              /\ PyStr.contains "." region = false)
      /\ (family_of (clean requested) <> None -> family_of id <> None).
Proof.
  intros svc requested st.
  destruct (has_region_prefix (clean requested)) eqn:Q.
  - rewrite (resolve_qualified _ _ _ Q). eexists _, _. repeat split; auto.
  - destruct (resolve_unqualified svc requested st Q) as (m & E & ->).
    apply get_available_qualified in E.
    eexists _, _. split; [reflexivity|].
    destruct (m !! clean requested) as [id|] eqn:L; [|auto].
    destruct (E _ _ L) as (region & -> & N). split.
    + right. eauto.
    + intros F. rewrite <- append_assoc. apply recognised_app, F.
Qed.

(** *** A listing of well-formed summaries *)

Lemma index_profiles_listed (pre : list json) (ids : list string) (rest : list json)
      (m : gmap string string) :
  List.map listed_id pre = List.map Some ids ->
  index_profiles (pre ++ rest) m = index_profiles rest (index_ids ids m).
Proof.
  revert ids m. induction pre as [|s pre IH]; intros ids m H.
  - destruct ids; [reflexivity | discriminate].
  - destruct ids as [|id ids]; [discriminate|].
    cbn [List.map] in H. injection H as Hs H.
    cbn [List.app index_profiles index_ids List.fold_left].
    unfold listed_id in Hs. destruct s as [| | | | |d]; try discriminate.
    destruct (Py.lookup d "inferenceProfileId") as [[| | |i| |]|] eqn:K; try discriminate.
    injection Hs as ->.
    cbn [subscript]. unfold Py.getitem. rewrite K, bind_Ok_l.
    cbn [Py.contains_key]. rewrite bind_Ok_l.
    destruct (PyStr.contains "." id) eqn:D.
    + unfold base_of.
      destruct (PyStr.split1 "." id) as [|a [|b t]]; apply IH, H.
    + rewrite (base_of_no_dot _ D). apply IH, H.
Qed.

Lemma index_ids_app (a b : list string) (m : gmap string string) :
  index_ids (a ++ b) m = index_ids b (index_ids a m).
Proof. apply List.fold_left_app. Qed.

Lemma index_ids_absent (ids : list string) (m : gmap string string) (base : string) :
  (forall x, In x ids -> base_of x <> Some base) ->
  index_ids ids m !! base = m !! base.
Proof.
  revert m. induction ids as [|id ids IH]; intros m H; [reflexivity|].
  cbn [index_ids List.fold_left]. fold (index_ids ids).
  rewrite IH by (intros x Hx; apply H; right; exact Hx).
  destruct (base_of id) as [b|] eqn:B; [|reflexivity].
  apply lookup_insert_ne. intros ->. apply (H id); [left; reflexivity | exact B].
Qed.

(** The last listed id of a base is the one the index answers with. *)
Lemma index_ids_last (pre post : list string) (id base : string)
      (m : gmap string string) :
  base_of id = Some base ->
  (forall x, In x post -> base_of x <> Some base) ->
  index_ids (pre ++ id :: post) m !! base = Some id.
Proof.
  intros B H. rewrite index_ids_app.
  cbn [index_ids List.fold_left]. fold (index_ids post). rewrite B.
  rewrite (index_ids_absent _ _ _ H). apply lookup_insert_eq.
Qed.

Lemma get_available_listed (svc : Service) (st : State)
      (d : list (string * json)) (summaries : list json) :
  list_inference_profiles svc (calls st) = Ok (JDict d) ->
  Py.lookup d "inferenceProfileSummaries" = Some (JList summaries) ->
  get_available_inference_profiles svc st
  = (match index_profiles summaries ∅ with
     | Ok m => Ok m
     | Raise _ => Ok ∅
     end, logged st ListInferenceProfiles).
Proof.
  intros L S.
  unfold get_available_inference_profiles, tryM, bindM, remote, lift, ret, logged.
  rewrite L. cbn [Py.get]. unfold Py.dict_get. rewrite S. cbn [iterate].
  destruct (index_profiles summaries ∅); reflexivity.
Qed.

(** X7: when the listing is an object whose summaries are objects with a
    string id, an unqualified request resolves to the last listed id
    whose text after the first dot is the requested id, and to the
    requested id itself when no listed id has it as its base. *)
Theorem resolve_from_listing :
  forall (svc : Service) (requested : string) (st : State)
         (d : list (string * json)) (summaries : list json) (ids : list string),
    has_region_prefix (clean requested) = false ->
    list_inference_profiles svc (calls st) = Ok (JDict d) ->
    Py.lookup d "inferenceProfileSummaries" = Some (JList summaries) ->
    List.map listed_id summaries = List.map Some ids ->
    (forall (pre : list string) (id : string) (post : list string),
        ids = (pre ++ id :: post)%list ->
        base_of id = Some (clean requested) ->
        (forall x, In x post -> base_of x <> Some (clean requested)) ->
        fst (get_best_model_id svc requested st) = Ok id)
    /\ ((forall x, In x ids -> base_of x <> Some (clean requested)) ->
        fst (get_best_model_id svc requested st) = Ok (clean requested)).
Proof.
  intros svc requested st d summaries ids Q L S W.
  destruct (resolve_unqualified svc requested st Q) as (m & E & ->).
  rewrite (get_available_listed _ _ _ _ L S) in E.
  rewrite <- (List.app_nil_r summaries) in E.
  rewrite (index_profiles_listed _ _ _ _ W) in E. cbn [index_profiles] in E.
  injection E as <-. cbn [fst]. split.
  - intros pre id post -> B H. rewrite (index_ids_last _ _ _ _ _ B H). reflexivity.
  - intros H. rewrite (index_ids_absent _ _ _ H), lookup_empty. reflexivity.
Qed.

(** Two deployments of the requested base id are listed: the later one. *)
Lemma resolve_from_listing_witness :
  fst (get_best_model_id (service_with (Ok three_profiles))
         "bedrock/anthropic.claude-3-haiku" initial)
  = Ok "eu.anthropic.claude-3-haiku".
Proof.
  destruct (resolve_from_listing
              (service_with (Ok three_profiles)) "bedrock/anthropic.claude-3-haiku" initial
              [ ("inferenceProfileSummaries",
                 JList [ summary "us.anthropic.claude-3-haiku";
                         summary "eu.anthropic.claude-3-haiku";
                         summary "us.meta.llama3-8b" ]) ]
              [ summary "us.anthropic.claude-3-haiku";
                summary "eu.anthropic.claude-3-haiku";
                summary "us.meta.llama3-8b" ]
              [ "us.anthropic.claude-3-haiku"; "eu.anthropic.claude-3-haiku";
                "us.meta.llama3-8b" ]
              eq_refl eq_refl eq_refl eq_refl) as [P _].
  apply (P ["us.anthropic.claude-3-haiku"] "eu.anthropic.claude-3-haiku"
           ["us.meta.llama3-8b"]); [reflexivity | reflexivity |].
  intros x [<-|[]]. discriminate.
Defined.

Lemma lacks_id_raises (s : json) :
  lacks_id s = true -> exists e, subscript s "inferenceProfileId" = Raise e.
Proof.
  destruct s as [| | | | |d]; cbn [lacks_id subscript]; eauto.
  unfold Py.has_key, Py.getitem.
  destruct (Py.lookup d "inferenceProfileId"); [discriminate | eauto].
Qed.

(** X8: one summary without an id voids the whole listing: when the
    summaries before it are well formed and it is not an object, or an
    object without ['inferenceProfileId'], every unqualified request
    resolves to itself, also one whose deployment is listed before the
    damaged summary. *)
Theorem damaged_summary_voids_the_listing :
  forall (svc : Service) (requested : string) (st : State)
         (d : list (string * json)) (pre : list json) (ids : list string)
         (bad : json) (post : list json),
    has_region_prefix (clean requested) = false ->
    list_inference_profiles svc (calls st) = Ok (JDict d) ->
    Py.lookup d "inferenceProfileSummaries" = Some (JList (pre ++ bad :: post)) ->
    List.map listed_id pre = List.map Some ids ->
    lacks_id bad = true ->
    get_best_model_id svc requested st
    = (Ok (clean requested), logged st ListInferenceProfiles).
Proof.
  intros svc requested st d pre ids bad post Q L S W B.
  destruct (resolve_unqualified svc requested st Q) as (m & E & ->).
  rewrite (get_available_listed _ _ _ _ L S) in E.
  rewrite (index_profiles_listed _ _ _ _ W) in E. cbn [index_profiles] in E.
  destruct (lacks_id_raises _ B) as [e R]. rewrite R in E. cbn [bind] in E.
  injection E as <-. rewrite lookup_empty. reflexivity.
Qed.

(** The deployment of the request is listed, before a summary without id. *)
Lemma damaged_summary_voids_the_listing_witness :
  get_best_model_id (service_with (Ok damaged_listing)) "anthropic.claude-3-haiku" initial
  = (Ok "anthropic.claude-3-haiku", logged initial ListInferenceProfiles).
Proof.
  apply (damaged_summary_voids_the_listing
           (service_with (Ok damaged_listing)) "anthropic.claude-3-haiku" initial
           [ ("inferenceProfileSummaries",
              JList [ summary "us.anthropic.claude-3-haiku";
                      JDict [("inferenceProfileName", JStr "profile")] ]) ]
           [summary "us.anthropic.claude-3-haiku"] ["us.anthropic.claude-3-haiku"]
           (JDict [("inferenceProfileName", JStr "profile")]) []);
    reflexivity.
Defined.

(** X9: [_is_inference_profile] is the region-prefix test of the
    resolver: an id that begins with a region and a dot is not empty and
    contains a dot, so the two other conditions never decide. *)
Theorem is_inference_profile_is_region_prefix :
  forall model_id : string,
    Formatter._is_inference_profile model_id = has_region_prefix model_id.
Proof.
  intros model_id. unfold Formatter._is_inference_profile, has_region_prefix.
  change Formatter.regions with regions.
  destruct (existsb _ regions) eqn:E; [|apply andb_false_r].
  apply existsb_exists in E as (region & _ & P). unfold PyStr.startswith in P.
  rewrite (prefix_app_contains _ _ _ P).
  destruct model_id; [|reflexivity].
  destruct region; discriminate.
Qed.

End Index.


(** ** The paths of a completion *)

Section Paths.

Import Gateway Resolving Prompt Calls.

Lemma dispatch_request_body (model_id : string) (messages : list Formatter.message)
      (temperature : float) (max_tokens : Z) (kw : Formatter.kwargs) :
  (if PyStr.contains "anthropic" (PyStr.lower model_id)
   then Formatter._format_anthropic_request messages temperature max_tokens kw
   else if PyStr.contains "amazon.titan" (PyStr.lower model_id)
   then Formatter._format_titan_request messages temperature max_tokens kw
   else if PyStr.contains "meta.llama" (PyStr.lower model_id)
   then Formatter._format_llama_request messages temperature max_tokens kw
   else Raise (Exn BedrockModelError ("Unsupported model: " ++ model_id)))
  = request_body model_id messages temperature max_tokens kw.
Proof.
  unfold request_body, family_of.
  destruct (PyStr.contains "anthropic" _); [reflexivity|].
  destruct (PyStr.contains "amazon.titan" _); [reflexivity|].
  destruct (PyStr.contains "meta.llama" _); reflexivity.
Qed.

(** The three outcomes of the [client] property. *)
Lemma client_cases (svc : Service) (st : State) :
  (_client st = true /\ client svc st = (Ok tt, st))
  \/ (_client st = false
      /\ (exists u, create_client svc (calls st) = Ok u)
      /\ client svc st = (Ok tt, {| calls := calls st; _client := true |}))
  \/ (_client st = false
      /\ (exists e,
             create_client svc (calls st) = Raise e
             /\ client svc st
                = (Raise (if is_no_credentials_error e then no_credentials else e), st))).
Proof.
  unfold client. destruct (_client st); [left; auto|right].
  destruct (create_client svc (calls st)) as [u|e]; [left; eauto|right].
  split; [reflexivity|]. exists e. split; [reflexivity|].
  destruct (is_no_credentials_error e); reflexivity.
Qed.

Lemma client_keeps_calls (svc : Service) (st st' : State) (r : res unit) :
  client svc st = (r, st') -> calls st' = calls st.
Proof.
  destruct (client_cases svc st) as [[_ E]|[(_ & _ & E)|(_ & e & _ & E)]];
    rewrite E; intros [= _ <-]; reflexivity.
Qed.

Lemma completion_unformatted (svc : Service) (requested : string)
      (messages : list Formatter.message) (stream : bool)
      (temperature : float) (max_tokens : Z) (kw : Formatter.kwargs)
      (st st1 : State) (model_id : string) (e : exn) :
  Resolver.get_best_model_id svc requested st = (Ok model_id, st1) ->
  request_body model_id messages temperature max_tokens kw = Raise e ->
  completion svc requested messages stream temperature max_tokens kw st = (Raise e, st1).
Proof.
  intros R B. unfold completion, bindM. rewrite R.
  rewrite dispatch_request_body, B. reflexivity.
Qed.

(** The synchronous path, step by step. *)
Lemma completion_sync (svc : Service) (requested : string)
      (messages : list Formatter.message) (stream : bool)
      (temperature : float) (max_tokens : Z) (kw : Formatter.kwargs)
      (st st1 : State) (model_id : string) (body : pyobj) :
  Resolver.get_best_model_id svc requested st = (Ok model_id, st1) ->
  request_body model_id messages temperature max_tokens kw = Ok body ->
  streamed svc stream = false ->
  completion svc requested messages stream temperature max_tokens kw st
  = match client svc st1 with
    | (Raise e, st2) => (Raise (classify e), st2)
    | (Ok _, st2) =>
        match invoke_model svc (calls st2) model_id body with
        | Raise e => (Raise (classify e), logged st2 (InvokeModel model_id body))
        | Ok data =>
            match Response.__init__ data requested with
            | Ok r => (Ok (Completed r), logged st2 (InvokeModel model_id body))
            | Raise e => (Raise (classify e), logged st2 (InvokeModel model_id body))
            end
        end
    end.
Proof.
  intros R B S. unfold completion, bindM at 1 2. rewrite R.
  rewrite dispatch_request_body, B. unfold lift at 1. cbv beta iota.
  unfold streamed in S. rewrite S.
  unfold tryM, bindM, remote, lift, ret, raise, logged.
  destruct (Formatter._is_inference_profile model_id);
    destruct (client svc st1) as [[u|e] st2]; try reflexivity;
    destruct (invoke_model svc (calls st2) model_id body) as [data|e]; try reflexivity;
    destruct (Response.__init__ data requested); reflexivity.
Qed.

(** The streaming path, step by step. *)
Lemma completion_stream (svc : Service) (requested : string)
      (messages : list Formatter.message) (stream : bool)
      (temperature : float) (max_tokens : Z) (kw : Formatter.kwargs)
      (st st1 : State) (model_id : string) (body : pyobj) :
  Resolver.get_best_model_id svc requested st = (Ok model_id, st1) ->
  request_body model_id messages temperature max_tokens kw = Ok body ->
  streamed svc stream = true ->
  completion svc requested messages stream temperature max_tokens kw st
  = match client svc st1 with
    | (Raise e, st2) => (Raise (classify e), st2)
    | (Ok _, st2) =>
        match invoke_model_with_response_stream svc (calls st2) model_id body with
        | Raise e =>
            (Raise (classify e), logged st2 (InvokeModelWithResponseStream model_id body))
        | Ok response =>
            (Ok (Generator (Streaming._handle_streaming_response response model_id)),
             logged st2 (InvokeModelWithResponseStream model_id body))
        end
    end.
Proof.
  intros R B S. unfold completion, bindM at 1 2. rewrite R.
  rewrite dispatch_request_body, B. unfold lift at 1. cbv beta iota.
  unfold streamed in S. rewrite S.
  unfold tryM, bindM, remote, lift, ret, raise, logged.
  destruct (Formatter._is_inference_profile model_id);
    destruct (client svc st1) as [[u|e] st2]; try reflexivity;
    destruct (invoke_model_with_response_stream svc (calls st2) model_id body);
    reflexivity.
Qed.

(** A [ClientError] raised while the client is created falls under the
    [except ClientError] clause of [completion], as the property is read
    inside its [try]. *)
Lemma client_creation_error_is_classified (svc : Service) (requested : string)
      (messages : list Formatter.message) (stream : bool)
      (temperature : float) (max_tokens : Z) (kw : Formatter.kwargs)
      (st st1 : State) (model_id : string) (body : pyobj) (e : exn) :
  Resolver.get_best_model_id svc requested st = (Ok model_id, st1) ->
  request_body model_id messages temperature max_tokens kw = Ok body ->
  _client st1 = false ->
  create_client svc (calls st1) = Raise e ->
  is_no_credentials_error e = false ->
  completion svc requested messages stream temperature max_tokens kw st
  = (Raise (classify e), st1).
Proof.
  intros R B N C K.
  assert (A : client svc st1 = (Raise e, st1)).
  { unfold client. rewrite N, C, K. reflexivity. }
  destruct (streamed svc stream) eqn:S.
  - rewrite (completion_stream _ _ _ _ _ _ _ _ _ _ _ R B S), A. reflexivity.
  - rewrite (completion_sync _ _ _ _ _ _ _ _ _ _ _ R B S), A. reflexivity.
Qed.

Lemma classify_client_error (e : exn) (code : string) :
  exn_cls e = ClientError code -> classify e = classified code (exn_msg e).
Proof. unfold classify, classified. intros ->. reflexivity. Qed.

Lemma classify_other (e : exn) : is_client_error e = false -> classify e = e.
Proof.
  unfold classify, is_client_error. destruct (exn_cls e); try reflexivity. discriminate.
Qed.

Lemma completion_transport_error (svc : Service) (requested : string)
      (messages : list Formatter.message) (stream : bool)
      (temperature : float) (max_tokens : Z) (kw : Formatter.kwargs)
      (st st1 st2 : State) (model_id : string) (body : pyobj) (e : exn) :
  Resolver.get_best_model_id svc requested st = (Ok model_id, st1) ->
  request_body model_id messages temperature max_tokens kw = Ok body ->
  client svc st1 = (Ok tt, st2) ->
  transport_error svc (calls st2) (streamed svc stream) model_id body = Some e ->
  completion svc requested messages stream temperature max_tokens kw st
  = (Raise (classify e), logged st2 (invocation (streamed svc stream) model_id body)).
Proof.
  intros R B C T. unfold transport_error in T.
  destruct (streamed svc stream) eqn:S.
  - rewrite (completion_stream _ _ _ _ _ _ _ _ _ _ _ R B S), C.
    destruct (invoke_model_with_response_stream svc (calls st2) model_id body);
      [discriminate|]. injection T as ->. reflexivity.
  - rewrite (completion_sync _ _ _ _ _ _ _ _ _ _ _ R B S), C.
    destruct (invoke_model svc (calls st2) model_id body); [discriminate|].
    injection T as ->. reflexivity.
Qed.

(** X10: when the transport call of a completion raises a [ClientError],
    on either path, the completion raises [BedrockRateLimitError] for the
    code ThrottlingException, [BedrockModelError] for ValidationException
    and [BedrockLLMError] for any other code, each with the text of the
    original error behind a fixed lead; the call was made once. *)
Theorem completion_classifies_client_error :
  forall (svc : Service) (requested : string) (messages : list Formatter.message)
         (stream : bool) (temperature : float) (max_tokens : Z) (kw : Formatter.kwargs)
         (st st1 st2 : State) (model_id : string) (body : pyobj)
         (e : exn) (error_code : string),
    Resolver.get_best_model_id svc requested st = (Ok model_id, st1) ->
    request_body model_id messages temperature max_tokens kw = Ok body ->
    client svc st1 = (Ok tt, st2) ->
    transport_error svc (calls st2) (streamed svc stream) model_id body = Some e ->
    exn_cls e = ClientError error_code ->
    completion svc requested messages stream temperature max_tokens kw st
    = (Raise (if String.eqb error_code "ThrottlingException"
              then Exn BedrockRateLimitError ("Rate limit exceeded: " ++ exn_msg e)
              else if String.eqb error_code "ValidationException"
              then Exn BedrockModelError ("Invalid request: " ++ exn_msg e)
              else Exn BedrockLLMError ("Bedrock API error: " ++ exn_msg e)),
       logged st2 (invocation (streamed svc stream) model_id body)).
Proof.
  intros svc requested messages stream temperature max_tokens kw st st1 st2
         model_id body e error_code R B C T K.
  rewrite (completion_transport_error _ _ _ _ _ _ _ _ _ _ _ _ _ R B C T).
  rewrite (classify_client_error _ _ K). reflexivity.
Qed.

Lemma completion_classifies_client_error_witness :
  completion (transport_with (Raise throttled)) "us.anthropic.claude-3-haiku"
    [user_msg "hello"] false 0%float 4096 [] initial
  = (Raise (if String.eqb "ThrottlingException" "ThrottlingException"
            then Exn BedrockRateLimitError ("Rate limit exceeded: " ++ exn_msg throttled)
            else if String.eqb "ThrottlingException" "ValidationException"
            then Exn BedrockModelError ("Invalid request: " ++ exn_msg throttled)
            else Exn BedrockLLMError ("Bedrock API error: " ++ exn_msg throttled)),
     logged {| calls := []; _client := true |}
       (invocation (streamed (transport_with (Raise throttled)) false)
          "us.anthropic.claude-3-haiku"
          (PDict [ ("messages",
                    PList [PDict [("role", PJson (JStr "user"));
                                  ("content", PJson (JStr "hello"))]]);
                   ("max_tokens", PJson (JInt 4096));
                   ("temperature", PFloat 0%float);
                   ("anthropic_version", PJson (JStr "bedrock-2023-05-31")) ]))).
Proof.
  apply (completion_classifies_client_error
           (transport_with (Raise throttled)) "us.anthropic.claude-3-haiku"
           [user_msg "hello"] false 0%float 4096 [] initial initial
           {| calls := []; _client := true |} "us.anthropic.claude-3-haiku"
           _ throttled "ThrottlingException");
    reflexivity.
Defined.

(** X11: an exception of the transport call that is not a [ClientError]
    (a connection failure, a body that is not JSON) leaves the completion
    as it is: it is not turned into one of the module's error classes. *)
Theorem completion_passes_other_errors :
  forall (svc : Service) (requested : string) (messages : list Formatter.message)
         (stream : bool) (temperature : float) (max_tokens : Z) (kw : Formatter.kwargs)
         (st st1 st2 : State) (model_id : string) (body : pyobj) (e : exn),
    Resolver.get_best_model_id svc requested st = (Ok model_id, st1) ->
    request_body model_id messages temperature max_tokens kw = Ok body ->
    client svc st1 = (Ok tt, st2) ->
    transport_error svc (calls st2) (streamed svc stream) model_id body = Some e ->
    is_client_error e = false ->
    completion svc requested messages stream temperature max_tokens kw st
    = (Raise e, logged st2 (invocation (streamed svc stream) model_id body)).
Proof.
  intros svc requested messages stream temperature max_tokens kw st st1 st2
         model_id body e R B C T K.
  rewrite (completion_transport_error _ _ _ _ _ _ _ _ _ _ _ _ _ R B C T).
  rewrite (classify_other _ K). reflexivity.
Qed.

Lemma completion_passes_other_errors_witness :
  completion (transport_with (Raise unreachable)) "us.anthropic.claude-3-haiku"
    [user_msg "hello"] true 0%float 4096 [] initial
  = (Raise unreachable,
     logged {| calls := []; _client := true |}
       (invocation (streamed (transport_with (Raise unreachable)) true)
          "us.anthropic.claude-3-haiku"
          (PDict [ ("messages",
                    PList [PDict [("role", PJson (JStr "user"));
                                  ("content", PJson (JStr "hello"))]]);
                   ("max_tokens", PJson (JInt 4096));
                   ("temperature", PFloat 0%float);
                   ("anthropic_version", PJson (JStr "bedrock-2023-05-31")) ]))).
Proof.
  apply (completion_passes_other_errors
           (transport_with (Raise unreachable)) "us.anthropic.claude-3-haiku"
           [user_msg "hello"] true 0%float 4096 [] initial initial
           {| calls := []; _client := true |} "us.anthropic.claude-3-haiku"
           _ unreachable);
    reflexivity.
Defined.

(** X12: when no client exists yet and creating it raises
    [NoCredentialsError], a completion whose request was formatted raises
    [BedrockAuthError] on either path, in the state the resolver left: the
    transport is not invoked. *)
Theorem completion_without_credentials :
  forall (svc : Service) (requested : string) (messages : list Formatter.message)
         (stream : bool) (temperature : float) (max_tokens : Z) (kw : Formatter.kwargs)
         (st st1 : State) (model_id : string) (body : pyobj) (e : exn),
    Resolver.get_best_model_id svc requested st = (Ok model_id, st1) ->
    request_body model_id messages temperature max_tokens kw = Ok body ->
    _client st1 = false ->
    create_client svc (calls st1) = Raise e ->
    exn_cls e = OtherError "NoCredentialsError" ->
    completion svc requested messages stream temperature max_tokens kw st
    = (Raise (Exn BedrockAuthError
                "AWS credentials not found. Please configure AWS credentials."), st1)
    /\ (st1 = st \/ st1 = logged st ListInferenceProfiles).
Proof.
  intros svc requested messages stream temperature max_tokens kw st st1
         model_id body e R B N C K.
  split; [|eapply resolve_calls; exact R].
  assert (A : client svc st1 = (Raise no_credentials, st1)).
  { unfold client, is_no_credentials_error. rewrite N, C, K. reflexivity. }
  destruct (streamed svc stream) eqn:S.
  - rewrite (completion_stream _ _ _ _ _ _ _ _ _ _ _ R B S), A. reflexivity.
  - rewrite (completion_sync _ _ _ _ _ _ _ _ _ _ _ R B S), A. reflexivity.
Qed.

Lemma completion_without_credentials_witness :
  completion no_credentials_service "anthropic.claude-3-haiku"
    [user_msg "hello"] true 0%float 4096 [] initial
  = (Raise (Exn BedrockAuthError
              "AWS credentials not found. Please configure AWS credentials."),
     logged initial ListInferenceProfiles)
  /\ (logged initial ListInferenceProfiles = initial
      \/ logged initial ListInferenceProfiles = logged initial ListInferenceProfiles).
Proof.
  apply (completion_without_credentials
           no_credentials_service "anthropic.claude-3-haiku"
           [user_msg "hello"] true 0%float 4096 [] initial
           (logged initial ListInferenceProfiles) "us.anthropic.claude-3-haiku"
           (PDict [ ("messages",
                     PList [PDict [("role", PJson (JStr "user"));
                                   ("content", PJson (JStr "hello"))]]);
                    ("max_tokens", PJson (JInt 4096));
                    ("temperature", PFloat 0%float);
                    ("anthropic_version", PJson (JStr "bedrock-2023-05-31")) ])
           (Exn (OtherError "NoCredentialsError") "Unable to locate credentials"));
    reflexivity.
Defined.

(** X13: when the environment sets BEDROCK_DISABLE_STREAMING to "true",
    in any letter case, a completion asked to stream is the same
    computation as the one asked not to: same result, same calls. *)
Theorem streaming_disabled_by_environment :
  forall (svc : Service) (requested : string) (messages : list Formatter.message)
         (temperature : float) (max_tokens : Z) (kw : Formatter.kwargs)
         (st : State) (v : string),
    Py.lookup (environ svc) "BEDROCK_DISABLE_STREAMING" = Some v ->
    PyStr.lower v = "true" ->
    completion svc requested messages true temperature max_tokens kw st
    = completion svc requested messages false temperature max_tokens kw st.
Proof.
  intros svc requested messages temperature max_tokens kw st v E L.
  assert (D : disable_streaming svc = true).
  { unfold disable_streaming, Py.dict_get. rewrite E, L. reflexivity. }
  unfold completion. rewrite D. reflexivity.
Qed.

Lemma streaming_disabled_by_environment_witness :
  completion streaming_off_service "us.anthropic.claude-3-haiku"
    [user_msg "hello"] true 0%float 4096 [] initial
  = completion streaming_off_service "us.anthropic.claude-3-haiku"
      [user_msg "hello"] false 0%float 4096 [] initial.
Proof.
  apply (streaming_disabled_by_environment streaming_off_service
           "us.anthropic.claude-3-haiku" [user_msg "hello"] 0%float 4096 [] initial "True");
    reflexivity.
Defined.

Lemma resolve_total_calls (svc : Service) (requested : string) (st : State) :
  exists (model_id : string) (st1 : State) (listing : list call),
    Resolver.get_best_model_id svc requested st = (Ok model_id, st1)
    /\ calls st1 = (calls st ++ listing)%list
    /\ (listing = [] \/ listing = [ListInferenceProfiles]).
Proof.
  destruct (Resolver.has_region_prefix (clean requested)) eqn:Q.
  - rewrite (resolve_qualified _ _ _ Q). exists (clean requested), st, [].
    rewrite List.app_nil_r. auto.
  - destruct (resolve_unqualified svc requested st Q) as (m & _ & ->).
    eexists _, _, [ListInferenceProfiles]. auto.
Qed.

(** X14: a completion calls the service at most twice, whatever it is
    asked and however the service answers: at most one listing call, then
    at most one transport invocation.  Nothing is tried again. *)
Theorem completion_calls_at_most_once :
  forall (svc : Service) (requested : string) (messages : list Formatter.message)
         (stream : bool) (temperature : float) (max_tokens : Z) (kw : Formatter.kwargs)
         (st : State),
    exists listing invoked : list call,
      calls (snd (completion svc requested messages stream temperature max_tokens kw st))
      = (calls st ++ listing ++ invoked)%list
      /\ (listing = [] \/ listing = [ListInferenceProfiles])
      /\ (invoked = []
          \/ exists model_id body,
              invoked = [InvokeModel model_id body]
              \/ invoked = [InvokeModelWithResponseStream model_id body]).
Proof.
  intros svc requested messages stream temperature max_tokens kw st.
  destruct (resolve_total_calls svc requested st) as (id & st1 & listing & R & L & HL).
  exists listing.
  destruct (request_body id messages temperature max_tokens kw) as [body|e] eqn:B.
  2:{ exists []. rewrite (completion_unformatted _ _ _ _ _ _ _ _ _ _ _ R B).
      cbn [snd]. rewrite L, List.app_nil_r. auto. }
  destruct (streamed svc stream) eqn:S.
  - rewrite (completion_stream _ _ _ _ _ _ _ _ _ _ _ R B S).
    destruct (client svc st1) as [[u|e] st2] eqn:C;
      pose proof (client_keeps_calls _ _ _ _ C) as K.
    + exists [InvokeModelWithResponseStream id body].
      split; [|split; [exact HL | right; eauto]].
      destruct (invoke_model_with_response_stream svc (calls st2) id body);
        cbn [snd logged calls]; rewrite K, L, List.app_assoc; reflexivity.
    + exists []. cbn [snd]. rewrite K, L, List.app_nil_r. auto.
  - rewrite (completion_sync _ _ _ _ _ _ _ _ _ _ _ R B S).
    destruct (client svc st1) as [[u|e] st2] eqn:C;
      pose proof (client_keeps_calls _ _ _ _ C) as K.
    + exists [InvokeModel id body].
      split; [|split; [exact HL | right; eauto]].
      destruct (invoke_model svc (calls st2) id body) as [data|e];
        [destruct (Response.__init__ data requested)|];
        cbn [snd logged calls]; rewrite K, L, List.app_assoc; reflexivity.
    + exists []. cbn [snd]. rewrite K, L, List.app_nil_r. auto.
Qed.

Ltac unbind H :=
  repeat (apply bind_Ok in H;
          let v := fresh "v" in
          let Hv := fresh "Hv" in
          destruct H as (v & Hv & H); cbv beta in H).

Lemma init_model (data : json) (name : string) (r : Response.BedrockResponse) :
  Response.__init__ data name = Ok r -> Response.model r = name.
Proof.
  rewrite init_by_family.
  destruct (family_of name) as [[| |]|]; [| | |discriminate]; intros H.
  - unfold Response._parse_anthropic_response in H. unbind H.
    injection H as <-. reflexivity.
  - unfold Response._parse_titan_response in H. unbind H.
    injection H as <-. reflexivity.
  - unfold Response._parse_llama_response in H. unbind H.
    injection H as <-. reflexivity.
Qed.

Lemma init_recognised (data : json) (name : string) (r : Response.BedrockResponse) :
  Response.__init__ data name = Ok r -> family_of name <> None.
Proof.
  rewrite init_by_family. destruct (family_of name); [discriminate|discriminate].
Qed.

(** X15: a response that a completion returns carries the requested
    model name as it was given, gateway prefix included, and was parsed
    by the family of that name from the body of one [invoke_model] call,
    made with the resolved id and the request built for the family of the
    resolved id, on the synchronous path. *)
Theorem completed_response_provenance :
  forall (svc : Service) (requested : string) (messages : list Formatter.message)
         (stream : bool) (temperature : float) (max_tokens : Z) (kw : Formatter.kwargs)
         (st : State) (r : Response.BedrockResponse),
    fst (completion svc requested messages stream temperature max_tokens kw st)
    = Ok (Completed r) ->
    Response.model r = requested
    /\ family_of requested <> None
    /\ streamed svc stream = false
    /\ exists (model_id : string) (st1 st2 : State) (body : pyobj) (data : json),
        Resolver.get_best_model_id svc requested st = (Ok model_id, st1)
        /\ request_body model_id messages temperature max_tokens kw = Ok body
        /\ invoke_model svc (calls st2) model_id body = Ok data
        /\ Response.__init__ data requested = Ok r
        /\ snd (completion svc requested messages stream temperature max_tokens kw st)
           = logged st2 (InvokeModel model_id body).
Proof.
  intros svc requested messages stream temperature max_tokens kw st r H.
  destruct (resolve_total_calls svc requested st) as (id & st1 & listing & R & _ & _).
  destruct (request_body id messages temperature max_tokens kw) as [body|e] eqn:B.
  2:{ rewrite (completion_unformatted _ _ _ _ _ _ _ _ _ _ _ R B) in H. discriminate. }
  destruct (streamed svc stream) eqn:S.
  { rewrite (completion_stream _ _ _ _ _ _ _ _ _ _ _ R B S) in H.
    destruct (client svc st1) as [[u|e] st2]; [|discriminate].
    destruct (invoke_model_with_response_stream svc (calls st2) id body); discriminate. }
  rewrite (completion_sync _ _ _ _ _ _ _ _ _ _ _ R B S) in H |- *.
  destruct (client svc st1) as [[u|e] st2]; [|discriminate].
  destruct (invoke_model svc (calls st2) id body) as [data|e] eqn:I; [|discriminate].
  destruct (Response.__init__ data requested) as [r'|e] eqn:P; [|discriminate].
  injection H as <-.
  split; [eapply init_model; exact P|].
  split; [eapply init_recognised; exact P|].
  split; [reflexivity|].
  exists id, st1, st2, body, data. auto.
Qed.

Lemma completed_response_provenance_witness :
  Response.model
    {| Response.model := "bedrock/anthropic.claude-3-haiku";
       Response.choices :=
         [ {| Response.message := Response.assistant (JStr "hi");
              Response.finish_reason := JStr "end_turn" |} ];
       Response.usage :=
         {| Response.prompt_tokens := JInt 3;
            Response.completion_tokens := JInt 2;
            Response.total_tokens := JInt 5 |} |}
  = "bedrock/anthropic.claude-3-haiku".
Proof.
  apply (completed_response_provenance
           (service_with (Ok one_profile)) "bedrock/anthropic.claude-3-haiku"
           [user_msg "hello"] false 0%float 4096 [] initial).
  reflexivity.
Defined.

(** The chunks of the generator, whatever the events are. *)
Lemma stream_shape (model_id : string) (response : Streaming.EventStream) :
  exists body last,
    Streaming._handle_streaming_response response model_id = (body ++ [last])%list
    /\ forallb Chunks.non_terminal body = true
    /\ Chunks.terminal last = true.
Proof.
  unfold Streaming._handle_streaming_response.
  destruct (forallb Chunks.decodes (Streaming.events response)) eqn:D.
  - rewrite (stream_loop_decoded _ _ _ D).
    eexists _, _. split; [reflexivity|].
    split; [apply per_event_non_terminal|].
    destruct (Streaming.ending response); reflexivity.
  - destruct (first_failure _ D) as (pre & e & post & -> & Hpre).
    rewrite (stream_loop_failure _ _ _ _ _ Hpre).
    eexists _, _. split; [reflexivity|].
    split; [apply per_event_non_terminal | reflexivity].
Qed.

(** X16: a completion returns a generator only when streaming was asked
    for and is not disabled, and the chunks of that generator are
    non-terminal chunks followed by exactly one terminal chunk, whatever
    the transport delivers. *)
Theorem completion_generator_is_well_formed :
  forall (svc : Service) (requested : string) (messages : list Formatter.message)
         (stream : bool) (temperature : float) (max_tokens : Z) (kw : Formatter.kwargs)
         (st : State) (chunks : list Streaming.StreamingChunk),
    fst (completion svc requested messages stream temperature max_tokens kw st)
    = Ok (Generator chunks) ->
    stream = true
    /\ disable_streaming svc = false
    /\ exists body last,
        chunks = (body ++ [last])%list
        /\ forallb Chunks.non_terminal body = true
        /\ Chunks.terminal last = true.
Proof.
  intros svc requested messages stream temperature max_tokens kw st chunks H.
  destruct (resolve_total_calls svc requested st) as (id & st1 & listing & R & _ & _).
  destruct (request_body id messages temperature max_tokens kw) as [body|e] eqn:B.
  2:{ rewrite (completion_unformatted _ _ _ _ _ _ _ _ _ _ _ R B) in H. discriminate. }
  destruct (streamed svc stream) eqn:S.
  - rewrite (completion_stream _ _ _ _ _ _ _ _ _ _ _ R B S) in H.
    unfold streamed in S. apply andb_prop in S as [-> D].
    apply negb_true_iff in D.
    destruct (client svc st1) as [[u|e] st2]; [|discriminate].
    destruct (invoke_model_with_response_stream svc (calls st2) id body)
      as [response|e]; [|discriminate].
    injection H as <-. split; [reflexivity|]. split; [exact D|].
    apply stream_shape.
  - rewrite (completion_sync _ _ _ _ _ _ _ _ _ _ _ R B S) in H.
    destruct (client svc st1) as [[u|e] st2]; [|discriminate].
    destruct (invoke_model svc (calls st2) id body) as [data|e]; [|discriminate].
    destruct (Response.__init__ data requested); discriminate.
Qed.

Lemma completion_generator_is_well_formed_witness :
  true = true
  /\ disable_streaming (service_with (Ok one_profile)) = false
  /\ exists body last,
      [Streaming.final_chunk] = (body ++ [last])%list
      /\ forallb Chunks.non_terminal body = true
      /\ Chunks.terminal last = true.
Proof.
  apply (completion_generator_is_well_formed
           (service_with (Ok one_profile)) "us.anthropic.claude-3-haiku"
           [user_msg "hello"] true 0%float 4096 [] initial).
  reflexivity.
Defined.

End Paths.


(** ** The text of a stream *)

Section StreamText.

Import Streaming Chunks Text.

(** X17: an event whose payload is not a JSON object yields no chunk and
    does not end the stream, for every deployment; and for an Anthropic
    deployment a [content_block_delta] whose [delta] is not an object
    yields no chunk either.  The family parsers answer their own
    exceptions with the empty text. *)
Theorem malformed_event_is_dropped :
  forall (model_id : string),
    (forall data : json,
        Shape.is_object data = false ->
        on_event model_id (Chunk (Ok data)) = Ok [])
    /\ (forall (d : list (string * json)) (v : json),
           family_of model_id = Some Anthropic ->
           Py.lookup d "type" = Some (JStr "content_block_delta") ->
           Py.lookup d "delta" = Some v ->
           Shape.is_object v = false ->
           on_event model_id (Chunk (Ok (JDict d))) = Ok []).
Proof.
  intros model_id. split.
  - intros data N. rewrite on_event_decoded.
    assert (T : delta_text model_id data = JStr "").
    { unfold delta_text, parse_by_model_type.
      destruct (PyStr.contains "anthropic" _);
        [destruct data; try discriminate; reflexivity|].
      destruct (PyStr.contains "amazon.titan" _);
        [destruct data; try discriminate; reflexivity|].
      destruct (PyStr.contains "meta.llama" _);
        [destruct data; try discriminate; reflexivity|].
      reflexivity. }
    rewrite T. reflexivity.
  - intros d v F T D N. rewrite on_event_decoded.
    assert (E : delta_text model_id (JDict d) = JStr "").
    { apply family_of_Anthropic in F.
      unfold delta_text, parse_by_model_type. rewrite F.
      unfold _parse_anthropic_streaming_chunk, Py.get_none.
      rewrite !get_object. unfold Py.dict_get. rewrite T, D.
      destruct v; try discriminate; reflexivity. }
    rewrite E. reflexivity.
Qed.

Lemma malformed_event_is_dropped_witness :
  on_event "amazon.titan-text-express-v1" (Chunk (Ok (JList [JStr "partial"]))) = Ok [].
Proof.
  destruct (malformed_event_is_dropped "amazon.titan-text-express-v1") as [N _].
  apply N. reflexivity.
Defined.

Lemma joined_app (a b : list StreamingChunk) :
  joined (a ++ b) = joined a ++ joined b.
Proof.
  induction a as [|c a IH]; [reflexivity|].
  cbn [List.app joined List.fold_right]. fold (joined (a ++ b)). fold (joined a).
  rewrite IH, append_assoc. reflexivity.
Qed.

Lemma joined_yield (model_id : string) (ev : event) (s : string) :
  event_string model_id ev = Some s ->
  exists out, on_event model_id ev = Ok out /\ joined out = s.
Proof.
  destruct ev as [|[data|e]]; cbn [event_string]; [| |discriminate].
  - intros [= <-]. exists []. auto.
  - destruct (delta_text model_id data) as [| | |t| |] eqn:T; try discriminate.
    intros [= ->]. rewrite on_event_decoded, T.
    destruct s as [|c s]; eexists; split; try reflexivity.
    change (String c s ++ "" = String c s). apply append_nil_r.
Qed.

(** X18: when every event of a stream that ends normally carries a
    string (the empty one for an event without payload or without
    recognised text), the texts of the yielded chunks put together are
    the strings of the events put together: leaving out the events
    without text loses no text, and the final chunk adds none. *)
Theorem stream_text_is_events_text :
  forall (model_id : string) (evs : list event) (texts : list string),
    List.map (event_string model_id) evs = List.map Some texts ->
    joined (_handle_streaming_response {| events := evs; ending := None |} model_id)
    = List.fold_right String.append "" texts.
Proof.
  intros model_id evs. unfold _handle_streaming_response. cbn [events ending].
  induction evs as [|ev evs IH]; intros texts H.
  - destruct texts; [reflexivity | discriminate].
  - destruct texts as [|s texts]; [discriminate|].
    cbn [List.map] in H. injection H as Hs H.
    destruct (joined_yield _ _ _ Hs) as (out & E & J).
    cbn [stream_loop]. rewrite E, joined_app, J, (IH _ H). reflexivity.
Qed.

Lemma stream_text_is_events_text_witness :
  joined (_handle_streaming_response
            {| events := [block_start; text_delta "Hel"; NoChunk; text_delta "lo"];
               ending := None |}
            "us.anthropic.claude-3-haiku")
  = List.fold_right String.append "" [""; "Hel"; ""; "lo"].
Proof.
  apply (stream_text_is_events_text "us.anthropic.claude-3-haiku"
           [block_start; text_delta "Hel"; NoChunk; text_delta "lo"]
           [""; "Hel"; ""; "lo"]).
  reflexivity.
Defined.

End StreamText.


(** ** Environment check and token estimates *)

Section Helpers.

Import Util.

(** X19: [validate_environment] reports keys in the environment exactly
    when it reports no missing key, for every environment, session and
    model; the missing keys are none, the marker BEDROCK_MODEL_REQUIRED
    alone, or the two access-key names. *)
Theorem validation_keys_iff_nothing_missing :
  forall (environ : list (string * string)) (get_credentials : res bool) (model : string),
    (keys_in_environment (validate_environment environ get_credentials model) = true
     <-> missing_keys (validate_environment environ get_credentials model) = [])
    /\ (missing_keys (validate_environment environ get_credentials model) = []
        \/ missing_keys (validate_environment environ get_credentials model)
           = ["BEDROCK_MODEL_REQUIRED"]
        \/ missing_keys (validate_environment environ get_credentials model)
           = ["AWS_ACCESS_KEY_ID"; "AWS_SECRET_ACCESS_KEY"]).
Proof.
  intros environ get_credentials model. unfold validate_environment.
  destruct (is_bedrock_model model); cbn [negb].
  2:{ cbn. split; [split; discriminate | auto]. }
  destruct (env_set environ "AWS_ACCESS_KEY_ID" && env_set environ "AWS_SECRET_ACCESS_KEY");
    cbn [negb].
  { cbn. split; [split; reflexivity | auto]. }
  destruct (env_set environ "AWS_PROFILE"); cbn [negb].
  { cbn. split; [split; reflexivity | auto]. }
  destruct get_credentials as [[|]|e]; cbn;
    (split; [split; (reflexivity || discriminate) | auto]).
Qed.

(** X20: for a Bedrock model, both access-key variables set and not
    empty, or a profile name set and not empty, make the environment
    valid whatever the session would say; without them the session
    decides, and a session that finds no credentials or raises leaves the
    two access-key names missing.  A variable set to the empty string
    counts as not set. *)
Theorem validation_reads_environment_first :
  forall (environ : list (string * string)) (get_credentials : res bool) (model : string),
    is_bedrock_model model = true ->
    (env_set environ "AWS_ACCESS_KEY_ID" && env_set environ "AWS_SECRET_ACCESS_KEY"
     || env_set environ "AWS_PROFILE" = true ->
     validate_environment environ get_credentials model
     = {| keys_in_environment := true; missing_keys := [] |})
    /\ (env_set environ "AWS_ACCESS_KEY_ID" && env_set environ "AWS_SECRET_ACCESS_KEY"
        || env_set environ "AWS_PROFILE" = false ->
        validate_environment environ get_credentials model
        = match get_credentials with
          | Ok true => {| keys_in_environment := true; missing_keys := [] |}
          | _ => {| keys_in_environment := false;
                    missing_keys := ["AWS_ACCESS_KEY_ID"; "AWS_SECRET_ACCESS_KEY"] |}
          end)
    /\ (forall (k v : string),
           Py.lookup environ k = Some v -> env_set environ k = true -> v <> "").
Proof.
  intros environ get_credentials model B. unfold validate_environment. rewrite B.
  cbn [negb]. repeat split.
  - intros H.
    destruct (env_set environ "AWS_ACCESS_KEY_ID" && env_set environ "AWS_SECRET_ACCESS_KEY");
      [reflexivity|].
    cbn [orb] in H. rewrite H. reflexivity.
  - intros H. apply orb_false_elim in H as [-> ->]. cbn [negb].
    destruct get_credentials as [[|]|e]; reflexivity.
  - intros k v L S ->. unfold env_set in S. rewrite L in S. discriminate.
Qed.

Lemma validation_reads_environment_first_witness :
  validate_environment profile_env (Raise Resolving.listing_down)
    "bedrock/anthropic.claude-3-haiku"
  = {| keys_in_environment := true; missing_keys := [] |}.
Proof.
  destruct (validation_reads_environment_first
              profile_env (Raise Resolving.listing_down)
              "bedrock/anthropic.claude-3-haiku" eq_refl) as [E _].
  apply E. reflexivity.
Defined.

Example empty_profile_is_not_set :
  validate_environment empty_profile (Ok false) "us.anthropic.claude-3-haiku"
  = {| keys_in_environment := false;
       missing_keys := ["AWS_ACCESS_KEY_ID"; "AWS_SECRET_ACCESS_KEY"] |}.
Proof. reflexivity. Qed.

(** *** Token estimates *)

Lemma encode_length (model text : string) :
  length (encode model text) = (String.length text / 4)%nat.
Proof. unfold encode. apply List.length_seq. Qed.

Lemma dict_get_lookup {V} (d : list (string * V)) (k : string) (default : V)
      (found : option V) :
  Py.lookup d k = found ->
  Py.dict_get d k default = match found with Some v => v | None => default end.
Proof. unfold Py.dict_get. intros ->. reflexivity. Qed.

Lemma list_sum_cons (n : nat) (l : list nat) : list_sum (n :: l) = (n + list_sum l)%nat.
Proof. reflexivity. Qed.

Lemma counted_sum_bounds (messages : list (list (string * json))) :
  (4 * list_sum (List.map (fun msg => counted msg / 4) messages)
   <= list_sum (List.map counted messages)
   <= 4 * list_sum (List.map (fun msg => counted msg / 4) messages)
      + 3 * length messages)%nat.
Proof.
  induction messages as [|msg rest IH]; [cbn; lia|].
  cbn [List.map length]. rewrite !list_sum_cons.
  pose proof (Nat.div_mod_eq (counted msg) 4) as E.
  pose proof (Nat.mod_upper_bound (counted msg) 4 ltac:(lia)) as U.
  lia.
Qed.

(** X21: [token_counter] counts at least the tokens [encode] gives for
    the texts of the messages taken one by one, and at most three
    quarters of a token per message more: the characters of all messages
    are added up before the division by four.  For one message the two
    agree. *)
Theorem token_counter_and_encode :
  forall (model : string) (messages : list (list (string * json))),
    (list_sum (List.map (fun msg =>
                 length (encode model (Py.str (Py.dict_get msg "content" (JStr "")))))
               messages)
     <= token_counter model messages
     <= list_sum (List.map (fun msg =>
                    length (encode model (Py.str (Py.dict_get msg "content" (JStr "")))))
                  messages)
        + 3 * length messages / 4)%nat
    /\ (forall msg : list (string * json),
           token_counter model [msg]
           = length (encode model (Py.str (Py.dict_get msg "content" (JStr ""))))).
Proof.
  intros model messages. split.
  - assert (M : List.map (fun msg =>
                   length (encode model (Py.str (Py.dict_get msg "content" (JStr "")))))
                 messages
               = List.map (fun msg => (counted msg / 4)%nat) messages).
    { apply List.map_ext. intros msg. apply encode_length. }
    rewrite M. unfold token_counter. fold counted.
    destruct (counted_sum_bounds messages) as [L U]. split.
    + apply Nat.div_le_lower_bound; [lia | exact L].
    + etransitivity; [apply Nat.Div0.div_le_mono, U|].
      rewrite Nat.mul_comm, Nat.div_add_l by lia. reflexivity.
  - intros msg. rewrite encode_length. unfold token_counter.
    cbn [List.map]. rewrite list_sum_cons. change (list_sum []) with 0%nat.
    rewrite Nat.add_0_r. reflexivity.
Qed.

(** X22: a message without the key 'content' adds nothing to the count
    of [token_counter], and a message whose content is [None] adds one
    token, the four characters of its printed form. *)
Theorem token_counter_without_content :
  forall (model : string) (msg : list (string * json))
         (rest : list (list (string * json))),
    (Py.lookup msg "content" = None ->
     token_counter model (msg :: rest) = token_counter model rest)
    /\ (Py.lookup msg "content" = Some JNull ->
        token_counter model (msg :: rest) = S (token_counter model rest)).
Proof.
  intros model msg rest. unfold token_counter. cbn [List.map].
  rewrite !list_sum_cons. split; intros L.
  - rewrite (dict_get_lookup _ _ _ _ L). reflexivity.
  - rewrite (dict_get_lookup _ _ _ _ L).
    change (String.length (Py.str JNull)) with (1 * 4)%nat.
    rewrite Nat.div_add_l by lia. reflexivity.
Qed.

Lemma token_counter_without_content_witness :
  token_counter "anthropic.claude-3-haiku" ([("role", JStr "user")] :: [user_msg "hello"])
  = token_counter "anthropic.claude-3-haiku" [user_msg "hello"].
Proof.
  destruct (token_counter_without_content "anthropic.claude-3-haiku"
              [("role", JStr "user")] [user_msg "hello"]) as [N _].
  apply N. reflexivity.
Defined.

End Helpers.


(** ** What the environment check accepts and what a completion serves *)

Section Acceptance.

Import Gateway Resolving Prompt Calls.





End Acceptance.


(** ** The Titan and Llama responses *)

Section OtherFamilies.

Import Response.

(** X24: for a Titan body whose ['results'] is absent, empty or a list
    that starts with an object, the parser returns a response whose text
    is the ['outputText'] of the first result (the empty string when the
    field or the result is missing; later results are not read), whose
    finish reason is "stop" and whose usage is 0, 0, 0. *)
Theorem titan_response_of_body :
  forall (name : string) (d : list (string * json)),
    Shape.titan_body d = true ->
    _parse_titan_response name (JDict d)
    = Ok {| model := name;
            choices := [ {| message := assistant (titan_text d);
                            finish_reason := JStr "stop" |} ];
            usage := Shape.zero_usage |}.
Proof.
  intros name d H. unfold _parse_titan_response, titan_text, Shape.titan_body in *.
  rewrite get_object, bind_Ok_l.
  destruct (Py.dict_get d "results" (JList [])) as [|b|n|s|l|o]; cbn in H |- *.
  - reflexivity.
  - destruct b; [discriminate | reflexivity].
  - destruct (n =? 0); [reflexivity | discriminate].
  - destruct (String.eqb s ""); [reflexivity | discriminate].
  - destruct l as [|x l]; [reflexivity|].
    destruct x; try discriminate. reflexivity.
  - destruct o; [reflexivity | discriminate].
Qed.

Lemma titan_response_of_body_witness :
  _parse_titan_response "amazon.titan-text-express-v1" (JDict titan_two_results)
  = Ok {| model := "amazon.titan-text-express-v1";
          choices := [ {| message := assistant (titan_text titan_two_results);
                          finish_reason := JStr "stop" |} ];
          usage := Shape.zero_usage |}.
Proof.
  apply (titan_response_of_body "amazon.titan-text-express-v1" titan_two_results).
  reflexivity.
Defined.

(** X25: for a Llama body whose token counts are integers where present,
    the parser returns a response whose text is ['generation'] (default
    the empty string), whose finish reason is ['stop_reason'] (default
    "stop") and whose usage is the two counts, a missing one read as 0,
    and their sum. *)
Theorem llama_response_of_body :
  forall (name : string) (d : list (string * json)),
    Shape.llama_body d = true ->
    exists p g : Z,
      Py.as_int (Py.dict_get d "prompt_token_count" (JInt 0)) = Some p
      /\ Py.as_int (Py.dict_get d "generation_token_count" (JInt 0)) = Some g
      /\ _parse_llama_response name (JDict d)
         = Ok {| model := name;
                 choices :=
                   [ {| message := assistant (Py.dict_get d "generation" (JStr ""));
                        finish_reason := Py.dict_get d "stop_reason" (JStr "stop") |} ];
                 usage :=
                   {| prompt_tokens := Py.dict_get d "prompt_token_count" (JInt 0);
                      completion_tokens := Py.dict_get d "generation_token_count" (JInt 0);
                      total_tokens := JInt (p + g) |} |}.
Proof.
  intros name d H. unfold Shape.llama_body in H. apply andb_prop in H as [Hp Hg].
  apply integer_or_absent_as_int in Hp as [p Hp].
  apply integer_or_absent_as_int in Hg as [g Hg].
  exists p, g. repeat split; try assumption.
  unfold _parse_llama_response. rewrite !get_object, !bind_Ok_l.
  rewrite (add_as_int _ _ p g Hp Hg). reflexivity.
Qed.

Lemma llama_response_of_body_witness :
  exists p g : Z,
    Py.as_int (Py.dict_get llama_ok "prompt_token_count" (JInt 0)) = Some p
    /\ Py.as_int (Py.dict_get llama_ok "generation_token_count" (JInt 0)) = Some g
    /\ _parse_llama_response "meta.llama3-8b-instruct-v1:0" (JDict llama_ok)
       = Ok {| model := "meta.llama3-8b-instruct-v1:0";
               choices :=
                 [ {| message := assistant (Py.dict_get llama_ok "generation" (JStr ""));
                      finish_reason := Py.dict_get llama_ok "stop_reason" (JStr "stop") |} ];
               usage :=
                 {| prompt_tokens := Py.dict_get llama_ok "prompt_token_count" (JInt 0);
                    completion_tokens :=
                      Py.dict_get llama_ok "generation_token_count" (JInt 0);
                    total_tokens := JInt (p + g) |} |}.
Proof.
  apply (llama_response_of_body "meta.llama3-8b-instruct-v1:0" llama_ok).
  reflexivity.
Defined.

(** X26: a body that is not a JSON object makes the response object of
    every recognised family raise [AttributeError] (the body has no
    method [get]); and for an Anthropic body a non-empty content list
    whose first element is not an object raises [AttributeError] as
    well.  The parsers do not degrade to an empty text there. *)
Theorem unreadable_body_raises :
  forall (name : string),
    family_of name <> None ->
    (forall data : json,
        Shape.is_object data = false ->
        __init__ data name = Raise (Py.no_attribute data "get"))
    /\ (forall (d : list (string * json)) (x : json) (l : list json),
           family_of name = Some Anthropic ->
           Py.lookup d "content" = Some (JList (x :: l)) ->
           Shape.is_object x = false ->
           __init__ (JDict d) name = Raise (Py.no_attribute x "get")).
Proof.
  intros name F. split.
  - intros data N. rewrite init_by_family.
    destruct (family_of name) as [[| |]|]; [| | |congruence];
      destruct data; try discriminate; reflexivity.
  - intros d x l A C N. rewrite init_by_family, A.
    unfold _parse_anthropic_response. rewrite get_object, bind_Ok_l.
    unfold Py.dict_get. rewrite C. cbn [Py.truthy Py.is_list andb Py.index0].
    rewrite bind_Ok_l. destruct x; try discriminate; reflexivity.
Qed.

Lemma unreadable_body_raises_witness :
  __init__ (JList []) "meta.llama3-8b-instruct-v1:0"
  = Raise (Py.no_attribute (JList []) "get").
Proof.
  destruct (unreadable_body_raises "meta.llama3-8b-instruct-v1:0") as [N _];
    [discriminate|].
  apply N. reflexivity.
Defined.

End OtherFamilies.


(** ** The knowledge-graph client *)

Section Graph.

Import KnowledgeGraph.

(** X27: [_validate_config] accepts a configuration exactly when its
    knowledge base id is not empty, its search type is HYBRID or
    SEMANTIC and its [max_results] lies between 1 and 100; what it raises
    is always a [ValueError], and an empty id is reported before anything
    else. *)
Theorem config_is_valid_iff :
  forall (config : KnowledgeGraphConfig),
    (_validate_config config = Ok tt
     <-> knowledge_base_id config <> ""
         /\ (search_type config = "HYBRID" \/ search_type config = "SEMANTIC")
         /\ 1 <= max_results config <= 100)
    /\ (forall e, _validate_config config = Raise e -> exn_cls e = OtherError "ValueError")
    /\ (knowledge_base_id config = "" ->
        _validate_config config = Raise (ValueError "knowledge_base_id is required")).
Proof.
  intros config. unfold _validate_config.
  destruct (String.eqb_spec (knowledge_base_id config) "") as [E|E].
  { split; [split; [discriminate | intros [N _]; congruence]|].
    split; [intros e [= <-]; reflexivity | reflexivity]. }
  cbn [existsb].
  destruct (String.eqb_spec (search_type config) "HYBRID") as [H|H];
    destruct (String.eqb_spec (search_type config) "SEMANTIC") as [S|S];
    cbn [orb negb];
    destruct (Z.ltb_spec (max_results config) 1);
    destruct (Z.gtb_spec (max_results config) 100); cbn [orb].
  all: split; [split|split].
  all: try discriminate.
  all: try (intros e [= <-]; reflexivity).
  all: try (intros; congruence).
  all: try (intros (_ & [B|B] & B'); (congruence || lia)).
  all: try (intros _; repeat split; auto; lia).
Qed.

Lemma build_without_reranking (config : KnowledgeGraphConfig)
      (kwargs : list (string * json)) :
  enable_reranking config && given (reranking_model_arn config) = false ->
  _build_retrieval_config config kwargs
  = Ok (JDict [ ("vectorSearchConfiguration",
                 JDict [ ("numberOfResults",
                          Py.dict_get kwargs "max_results" (JInt (max_results config)));
                         ("overrideSearchType",
                          Py.dict_get kwargs "search_type"
                                      (JStr (search_type config))) ]) ]).
Proof. unfold _build_retrieval_config. intros ->. reflexivity. Qed.

Lemma build_with_reranking (config : KnowledgeGraphConfig)
      (kwargs : list (string * json)) (k : Z) :
  enable_reranking config && given (reranking_model_arn config) = true ->
  Py.dict_get kwargs "max_results" (JInt (max_results config)) = JInt k ->
  _build_retrieval_config config kwargs
  = Ok (JDict [ ("vectorSearchConfiguration",
                 JDict [ ("numberOfResults", JInt k);
                         ("overrideSearchType",
                          Py.dict_get kwargs "search_type" (JStr (search_type config)));
                         reranking_entry (reranking_model_arn config)
                                         (JInt (Z.min k 25)) ]) ]).
Proof.
  unfold _build_retrieval_config. intros -> ->. cbn [min_25 bind List.app].
  unfold reranking_entry.
  destruct (Z.ltb_spec 25 k).
  - rewrite Z.min_r by lia. reflexivity.
  - rewrite Z.min_l by lia. reflexivity.
Qed.

(** X28: the retrieval configuration passes on the number of results
    and the search type of the keyword arguments, or of the configuration
    when they are not given; an overriding number is used as it is,
    outside of the validated range too.  The reranking entry is present
    exactly when reranking is enabled and a model ARN is given, and asks
    for the smaller of that number and 25 results; for a valid
    configuration without override that is between 1 and 25. *)
Theorem retrieval_config_of_settings :
  forall (config : KnowledgeGraphConfig) (kwargs : list (string * json)),
    (enable_reranking config && given (reranking_model_arn config) = false ->
     _build_retrieval_config config kwargs
     = Ok (JDict [ ("vectorSearchConfiguration",
                    JDict [ ("numberOfResults",
                             Py.dict_get kwargs "max_results"
                                         (JInt (max_results config)));
                            ("overrideSearchType",
                             Py.dict_get kwargs "search_type"
                                         (JStr (search_type config))) ]) ]))
    /\ (forall k : Z,
           enable_reranking config && given (reranking_model_arn config) = true ->
           Py.dict_get kwargs "max_results" (JInt (max_results config)) = JInt k ->
           _build_retrieval_config config kwargs
           = Ok (JDict [ ("vectorSearchConfiguration",
                          JDict [ ("numberOfResults", JInt k);
                                  ("overrideSearchType",
                                   Py.dict_get kwargs "search_type"
                                               (JStr (search_type config)));
                                  reranking_entry (reranking_model_arn config)
                                                  (JInt (Z.min k 25)) ]) ]))
    /\ (_validate_config config = Ok tt ->
        Py.lookup kwargs "max_results" = None ->
        Py.dict_get kwargs "max_results" (JInt (max_results config))
        = JInt (max_results config)
        /\ 1 <= max_results config <= 100
        /\ 1 <= Z.min (max_results config) 25 <= 25).
Proof.
  intros config kwargs. split; [apply build_without_reranking|].
  split; [intros k; apply build_with_reranking|].
  intros V N. unfold Py.dict_get. rewrite N. split; [reflexivity|].
  unfold _validate_config in V.
  destruct (String.eqb _ ""); [discriminate|].
  destruct (negb _); [discriminate|].
  destruct (Z.ltb_spec (max_results config) 1); [discriminate|].
  destruct (Z.gtb_spec (max_results config) 100); [discriminate|].
  lia.
Qed.

(** An override of 1000 results goes out as it is; 25 are reranked. *)
Lemma retrieval_config_of_settings_witness :
  _build_retrieval_config reranking_config [("max_results", JInt 1000)]
  = Ok (JDict [ ("vectorSearchConfiguration",
                 JDict [ ("numberOfResults", JInt 1000);
                         ("overrideSearchType",
                          Py.dict_get [("max_results", JInt 1000)] "search_type"
                                      (JStr (search_type reranking_config)));
                         reranking_entry (reranking_model_arn reranking_config)
                                         (JInt (Z.min 1000 25)) ]) ]).
Proof.
  apply (proj1 (proj2 (retrieval_config_of_settings
                         reranking_config [("max_results", JInt 1000)])) 1000);
    reflexivity.
Defined.

Lemma row_lines_objects (rows : list json) :
  forallb Shape.is_object rows = true ->
  row_lines rows = Ok (List.map line_of rows).
Proof.
  induction rows as [|row rest IH]; [reflexivity|].
  cbn [forallb]. intros H. apply andb_prop in H as [O R].
  cbn [row_lines List.map]. rewrite (IH R).
  destruct row; try discriminate. reflexivity.
Qed.

(** X29: [_extract_content] reads a content by kind, in this order: a
    ['text'] entry is returned as it is, whatever else the content holds;
    without it a ['byteContent'] entry gives a placeholder naming the
    ['type'] (default "unknown"); without both, rows that are objects give
    one line "name: value" per row, in order and joined by newlines; and
    a content with none of the three gives the empty string. *)
Theorem content_is_extracted_by_kind :
  forall (d : list (string * json)),
    (forall v, Py.lookup d "text" = Some v -> _extract_content d = Ok v)
    /\ (Py.lookup d "text" = None ->
        Py.has_key d "byteContent" = true ->
        _extract_content d
        = Ok (JStr ("[Binary content: "
                      ++ Py.str (Py.dict_get d "type" (JStr "unknown")) ++ "]")))
    /\ (forall rows : list json,
           Py.lookup d "text" = None ->
           Py.lookup d "byteContent" = None ->
           Py.lookup d "row" = Some (JList rows) ->
           forallb Shape.is_object rows = true ->
           _extract_content d
           = Ok (JStr (PyStr.join Formatter.nl (List.map line_of rows))))
    /\ (Py.lookup d "text" = None ->
        Py.lookup d "byteContent" = None ->
        Py.lookup d "row" = None ->
        _extract_content d = Ok (JStr "")).
Proof.
  intros d. unfold _extract_content, Py.has_key, Py.getitem. repeat split.
  - intros v ->. reflexivity.
  - intros -> B. destruct (Py.lookup d "byteContent"); [reflexivity | discriminate].
  - intros rows -> -> -> O. rewrite bind_Ok_l.
    destruct rows as [|row rest]; [reflexivity|].
    cbn [Py.truthy Resolver.iterate]. rewrite bind_Ok_l, (row_lines_objects _ O).
    reflexivity.
  - intros -> -> ->. reflexivity.
Qed.

Lemma content_is_extracted_by_kind_witness :
  _extract_content text_and_row = Ok (JStr "seven").
Proof.
  apply (proj1 (content_is_extracted_by_kind text_and_row)). reflexivity.
Defined.

End Graph.


(** ** Credential detection *)

Section Credentials.

Import Onboarding.

Lemma or_else_filled (s default : string) :
  default <> "" -> or_else s default <> "".
Proof.
  intros D. unfold or_else.
  destruct (String.eqb_spec s ""); [exact D | assumption].
Qed.

Lemma cli_region_filled (r : res CompletedProcess) : cli_region r <> "".
Proof.
  unfold cli_region. destruct r as [p|e]; [|discriminate].
  destruct (returncode p =? 0); [|discriminate].
  apply or_else_filled. discriminate.
Qed.

Lemma environ_get_empty (environ : list (string * string)) (k : string) :
  environ_get environ k "us-west-2" = "" -> Py.lookup environ k = Some "".
Proof.
  unfold environ_get. destruct (Py.lookup environ k); [congruence | discriminate].
Qed.

Lemma env_set_lookup (environ : list (string * string)) (k : string) :
  Util.env_set environ k = true -> Py.lookup environ k <> None.
Proof.
  unfold Util.env_set. destruct (Py.lookup environ k); [discriminate | discriminate].
Qed.

(** X30: [check_aws_credentials] looks at the environment first: with
    both access keys set (and not empty) it reports them without running
    anything.  It raises exactly when neither the keys nor a profile are
    set and the CLI call raises something other than a timeout or a
    missing program.  What it returns is consistent: credentials are
    reported exactly when a method is named, a profile exactly for the
    method aws_profile, no region without credentials, a missing region
    with credentials only for an IAM role whose region could not be
    read, and an empty region only when AWS_DEFAULT_REGION is set to the
    empty string; and [try_to_select_default_model] names the default
    model exactly when credentials are reported. *)
Theorem credentials_report_is_consistent :
  forall (environ : list (string * string))
         (get_caller_identity configure_get_region : res CompletedProcess)
         (get_credentials : res bool) (region_name : res (option string)),
    let check := check_aws_credentials environ get_caller_identity
                   configure_get_region get_credentials region_name in
    (Util.env_set environ "AWS_ACCESS_KEY_ID"
     && Util.env_set environ "AWS_SECRET_ACCESS_KEY" = true ->
     check = Ok {| has_credentials := true;
                   method := Some "environment_variables";
                   profile := None;
                   region := Some (environ_get environ "AWS_DEFAULT_REGION"
                                               "us-west-2") |})
    /\ (forall e,
           check = Raise e
           <-> Util.env_set environ "AWS_ACCESS_KEY_ID"
               && Util.env_set environ "AWS_SECRET_ACCESS_KEY" = false
               /\ Util.env_set environ "AWS_PROFILE" = false
               /\ get_caller_identity = Raise e
               /\ caught e = false)
    /\ (forall info,
           check = Ok info ->
           (has_credentials info = true <-> method info <> None)
           /\ (profile info <> None <-> method info = Some "aws_profile")
           /\ (has_credentials info = false -> region info = None)
           /\ (has_credentials info = true -> region info = None ->
               method info = Some "iam_role" /\ exists e, region_name = Raise e)
           /\ (region info = Some "" ->
               Py.lookup environ "AWS_DEFAULT_REGION" = Some "")
           /\ try_to_select_default_model environ get_caller_identity
                configure_get_region get_credentials region_name
              = Ok (if has_credentials info
                    then Some "bedrock/us.anthropic.claude-3-7-sonnet-20250109-v1:0"
                    else None)).
Proof.
  intros environ sts cfg creds rn check.
  unfold try_to_select_default_model. fold check.
  subst check. unfold check_aws_credentials. cbv zeta.
  destruct (Util.env_set environ "AWS_ACCESS_KEY_ID"
            && Util.env_set environ "AWS_SECRET_ACCESS_KEY") eqn:K.
  { split; [reflexivity|]. split.
    - intros e. split; [discriminate | intros (D & _); discriminate].
    - intros info [= <-]. cbn. repeat split; try congruence.
      + intros [= E]. apply environ_get_empty. exact E. }
  split; [discriminate|].
  destruct (Util.env_set environ "AWS_PROFILE") eqn:P.
  { split.
    - intros e. split; [discriminate | intros (_ & D & _); discriminate].
    - intros info [= <-]. cbn. repeat split; try congruence.
      + intros _. apply env_set_lookup. exact P.
      + intros [= E]. apply environ_get_empty. exact E. }
  assert (IAM : forall info,
             match creds with
             | Ok true =>
                 match rn with
                 | Ok name =>
                     {| has_credentials := true; method := Some "iam_role";
                        profile := None;
                        region := Some (or_else_opt name "us-west-2") |}
                 | Raise _ =>
                     {| has_credentials := true; method := Some "iam_role";
                        profile := None; region := None |}
                 end
             | _ =>
                 {| has_credentials := false; method := None;
                    profile := None; region := None |}
             end = info ->
             (has_credentials info = true <-> method info <> None)
             /\ (profile info <> None <-> method info = Some "aws_profile")
             /\ (has_credentials info = false -> region info = None)
             /\ (has_credentials info = true -> region info = None ->
                 method info = Some "iam_role" /\ exists e, rn = Raise e)
             /\ (region info = Some "" ->
                 Py.lookup environ "AWS_DEFAULT_REGION" = Some "")).
  { intros info <-.
    destruct creds as [[|]|ce]; [destruct rn as [name|re]| |]; cbn;
      repeat split; try congruence; eauto.
    intros [= E]. exfalso. revert E. unfold or_else_opt.
    destruct name; [apply or_else_filled|]; discriminate. }
  destruct sts as [result|se].
  - split.
    { intros e. split; [|intros (_ & _ & D & _); discriminate].
      destruct (returncode result =? 0); discriminate. }
    intros info. destruct (returncode result =? 0).
    + intros [= <-]. cbn. repeat split; try congruence.
      intros [= E]. exfalso. exact (cli_region_filled _ E).
    + intros [= E]. destruct (IAM info E) as (I1 & I2 & I3 & I4 & I5).
      rewrite E. cbn [bind].
      split; [exact I1|]. split; [exact I2|]. split; [exact I3|].
      split; [exact I4|]. split; [exact I5|]. reflexivity.
  - destruct (caught se) eqn:C.
    + split.
      { intros e. split; [discriminate|]. intros (_ & _ & [= ->] & D). congruence. }
      intros info [= E]. destruct (IAM info E) as (I1 & I2 & I3 & I4 & I5).
      rewrite E. cbn [bind].
      split; [exact I1|]. split; [exact I2|]. split; [exact I3|].
      split; [exact I4|]. split; [exact I5|]. reflexivity.
    + split.
      { intros e. split.
        - intros [= <-]. auto.
        - intros (_ & _ & [= ->] & _). reflexivity. }
      intros info. discriminate.
Qed.

(** Without the CLI, a session with credentials whose region cannot be
    read is reported with its method and no region. *)
Lemma credentials_report_is_consistent_witness :
  check_aws_credentials [] cli_missing cli_missing (Ok true) region_unreadable
  = Ok {| has_credentials := true; method := Some "iam_role";
          profile := None; region := None |}
  /\ exists e, region_unreadable = Raise e.
Proof.
  split; [reflexivity|].
  apply (proj2 (proj2 (credentials_report_is_consistent
                         [] cli_missing cli_missing (Ok true) region_unreadable))
               {| has_credentials := true; method := Some "iam_role";
                  profile := None; region := None |});
    reflexivity.
Defined.

End Credentials.
